(** * NewsAlgo: article classification and preference matching

    A shallow embedding of the classification algorithms
    ([calculate_reading_level], [calculate_information_density],
    [estimate_bias], [estimate_propaganda], [extract_topics]) and of the
    query pattern "Article Filtering by User Preferences" of
    TECHNICAL_SPEC.md, with the properties the specification states about
    them.

    Conventions of the embedding.
    - A Python [str] is a [string]; a character is a code point below 256,
      and [str.lower], the regular expression class [\w] and the white
      space of [str.split] are Python's on that range.
    - Python and JavaScript numbers are rationals ([Q]): [/] is exact, and
      results are compared with [==].
    - A Python call that may raise returns an [option]; [None] is the
      exception, and [try: ... except: return 5] is [default 5]. *)

From Stdlib Require Import Ascii QArith Qminmax Qabs Lqa.
From stdpp Require Import base option list strings gmap sorting.

Local Open Scope Q_scope.

(** ** Python text primitives *)

Module Py.

Definition code (c : ascii) : N := N_of_ascii c.

Definition between (lo hi n : N) : bool := ((lo <=? n) && (n <=? hi))%N.

(** [c.isupper()] for the characters [str.lower] moves: A-Z, and the
    Latin-1 capitals U+00C0..U+00DE without the multiplication sign. *)
Definition has_lowercase (c : ascii) : bool :=
  between 65 90 (code c)
  || (between 192 222 (code c) && negb (code c =? 215)%N).

Definition lower_char (c : ascii) : ascii :=
  if has_lowercase c then ascii_of_N (code c + 32) else c.

(** [s.lower()] *)
Fixpoint lower (s : string) : string :=
  match s with
  | EmptyString => EmptyString
  | String c rest => String (lower_char c) (lower rest)
  end.

(** The class [\w] of [re] on a [str] pattern: letters, digits and other
    numeric characters, and the underscore. *)
Definition is_word_char (c : ascii) : bool :=
  let n := code c in
  between 48 57 n || between 65 90 n || between 97 122 n || (n =? 95)%N
  || (n =? 170)%N || (n =? 178)%N || (n =? 179)%N || (n =? 181)%N
  || (n =? 185)%N || (n =? 186)%N || between 188 190 n
  || between 192 214 n || between 216 246 n || between 248 255 n.

(** White space as [str.split()] sees it. *)
Definition is_space (c : ascii) : bool :=
  let n := code c in
  between 9 13 n || between 28 32 n || (n =? 133)%N || (n =? 160)%N.

Definition flush (cur : string) : list string :=
  match cur with
  | EmptyString => []
  | _ => [cur]
  end.

(** The maximal runs of characters satisfying [p], left to right; [cur]
    is the run being read. *)
Fixpoint runs_from (p : ascii -> bool) (cur s : string) : list string :=
  match s with
  | EmptyString => flush cur
  | String c rest =>
      if p c then runs_from p (cur +:+ String c EmptyString) rest
      else flush cur ++ runs_from p EmptyString rest
  end.

(** [re.findall(r'\w+', s)] *)
Definition findall_words (s : string) : list string :=
  runs_from is_word_char EmptyString s.

(** [s.split()] *)
Definition split (s : string) : list string :=
  runs_from (fun c => negb (is_space c)) EmptyString s.

(** [needle in hay] *)
Fixpoint contains (needle hay : string) : bool :=
  String.prefix needle hay
  || match hay with
     | EmptyString => false
     | String _ rest => contains needle rest
     end.

(** [len(xs)] as a Python integer *)
Definition len {A} (xs : list A) : Z := Z.of_nat (length xs).

(** [sum(bs)] of a sequence of booleans *)
Fixpoint sum_bools (bs : list bool) : Z :=
  match bs with
  | [] => 0%Z
  | b :: rest => (Z.b2z b + sum_bools rest)%Z
  end.

(** [sum(ns)] of a sequence of integers *)
Fixpoint sum_ints (ns : list Z) : Z :=
  match ns with
  | [] => 0%Z
  | n :: rest => (n + sum_ints rest)%Z
  end.

(** [len(set(xs))] *)
Definition distinct (xs : list string) : Z := len (remove_dups xs).

(** [a / b]: raises [ZeroDivisionError] when [b] is zero. *)
Definition truediv (a b : Q) : option Q :=
  if Qeq_bool b 0 then None else Some (a / b).

(** [max(a, b)] and [min(a, b)] of two arguments: the first one wins a
    tie. *)
Definition max (a b : Q) : Q := if Qle_bool b a then a else b.
Definition min (a b : Q) : Q := if Qle_bool a b then a else b.

(** [not s] for a string *)
Definition is_empty (s : string) : bool :=
  match s with
  | EmptyString => true
  | _ => false
  end.

End Py.

(** ** Classification algorithms *)

(** A Python integer as an operand of [/]. *)
Definition int (n : Z) : Q := inject_Z n.

(** A sentence splitter: [None] when the call raises. *)
Definition tokenizer := string -> option (list string).

(** [len(s.split())] *)
Definition words_in (sentence : string) : Z := Py.len (Py.split sentence).

(** [sum(len(s.split()) for s in sentences)] *)
Definition total_words (sentences : list string) : Z :=
  Py.sum_ints (map words_in sentences).

Section ReadingLevel.

(** NLTK's [sent_tokenize] and the fallback [simple_tokenize]. *)
Variables sent_tokenize simple_tokenize : tokenizer.

(** The inner [try]: the fallback runs when the first splitter raises. *)
Definition sentences_of (text : string) : option (list string) :=
  match sent_tokenize text with
  | Some sentences => Some sentences
  | None => simple_tokenize text
  end.

Definition reading_level_of (sentences : list string) : option Q :=
  match sentences with
  | [] => Some 5
  | _ =>
      avg_sentence_length ←
        Py.truediv (int (total_words sentences)) (int (Py.len sentences));
      Some (Py.min 10 (Py.max 1 (avg_sentence_length / 3)))
  end.

Definition calculate_reading_level (text : string) : Q :=
  if Py.is_empty text then 5
  else default 5 (sentences_of text ≫= reading_level_of).

End ReadingLevel.

Definition calculate_information_density (text : string) : Q :=
  if Py.is_empty text then 5
  else default 5 (
    let words := Py.findall_words (Py.lower text) in
    match words with
    | [] => Some 5
    | _ =>
        unique_ratio ← Py.truediv (int (Py.distinct words)) (int (Py.len words));
        Some (Py.min 10 (Py.max 1 (unique_ratio * 20)))
    end).

Definition left_bias_terms : list string :=
  ["progressive"; "liberal"; "democrat"; "socialism"; "green new deal";
   "universal healthcare"].

Definition right_bias_terms : list string :=
  ["conservative"; "republican"; "trump"; "tax cuts"; "border wall";
   "deregulation"].

(** [sum(term in text for term in terms)] *)
Definition count_present (terms : list string) (text : string) : Z :=
  Py.sum_bools (map (fun term => Py.contains term text) terms).

Definition estimate_bias (text : string) : Q :=
  if Py.is_empty text then 5
  else default 5 (
    let text := Py.lower text in
    let left_count := count_present left_bias_terms text in
    let right_count := count_present right_bias_terms text in
    if (left_count =? right_count)%Z then Some 10
    else
      let total := (left_count + right_count)%Z in
      if (total =? 0)%Z then Some 10
      else
        imbalance ← Py.truediv (int (Z.abs (left_count - right_count))) (int total);
        Some (Py.min 10 (Py.max 1 (10 - imbalance * 9)))).

Definition propaganda_indicators : list string :=
  ["must"; "always"; "never"; "every"; "all"; "none"; "everyone"; "nobody";
   "undoubtedly"; "certainly"; "absolutely"; "obviously"; "clearly";
   "definitely"; "!!"; "??"; "BREAKING"; "EXCLUSIVE"].

(** The body of [estimate_propaganda] over any indicator table. *)
Definition estimate_propaganda_with (indicators : list string) (text : string) : Q :=
  if Py.is_empty text then 5
  else default 5 (
    let text := Py.lower text in
    let indicator_count := count_present indicators text in
    let word_count := Py.len (Py.findall_words text) in
    if (word_count =? 0)%Z then Some 5
    else
      per_hundred ← Py.truediv (int word_count) 100;
      density ← Py.truediv (int indicator_count) per_hundred;
      Some (Py.min 10 (Py.max 1 (10 - density)))).

Definition estimate_propaganda (text : string) : Q :=
  estimate_propaganda_with propaganda_indicators text.

(** [topic_keywords], in the insertion order of the dictionary. *)
Definition topic_keywords : list (string * list string) :=
  [("politics", ["politics"; "government"; "election"; "president"; "congress";
                 "senate"; "democracy"]);
   ("business", ["business"; "economy"; "market"; "stock"; "finance";
                 "company"; "industry"]);
   ("technology", ["technology"; "tech"; "ai"; "software"; "hardware";
                   "internet"; "app"; "digital"]);
   ("science", ["science"; "research"; "study"; "discovery"; "scientist";
                "physics"; "chemistry"; "biology"]);
   ("health", ["health"; "medical"; "medicine"; "disease"; "doctor";
               "patient"; "hospital"; "wellness"]);
   ("sports", ["sports"; "game"; "team"; "player"; "tournament";
               "championship"; "league"; "score"]);
   ("entertainment", ["entertainment"; "movie"; "film"; "music"; "celebrity";
                      "actor"; "director"; "tv"; "television"]);
   ("world", ["world"; "international"; "global"; "foreign"; "country";
              "nation"; "diplomatic"; "crisis"])].

(** [any(keyword in combined_text for keyword in keywords)] *)
Definition any_keyword (keywords : list string) (combined_text : string) : bool :=
  existsb (fun keyword => Py.contains keyword combined_text) keywords.

(** The loop over [topic_keywords.items()]; [detected_topics] is the list
    the loop appends to. *)
Fixpoint detect_topics (items : list (string * list string))
    (combined_text : string) (detected_topics : list string) : list string :=
  match items with
  | [] => detected_topics
  | (topic, keywords) :: rest =>
      detect_topics rest combined_text
        (if any_keyword keywords combined_text
         then detected_topics ++ [topic] else detected_topics)
  end.

(** [f"{title} {text or ''}".lower()] *)
Definition combined_text (text title : string) : string :=
  Py.lower (title +:+ " " +:+ text).

Definition extract_topics (text title : string) : list string :=
  if Py.is_empty text && Py.is_empty title then ["uncategorized"]
  else
    match detect_topics topic_keywords (combined_text text title) [] with
    | [] => ["uncategorized"]
    | detected_topics => detected_topics
    end.

(** ** Article filtering by user preferences *)

Record Classification := {
  cls_reading_level : Q;
  cls_information_density : Q;
  cls_bias_score : Q;
  cls_propaganda_score : Q;
  cls_length : Z;
  cls_topics : list string;
  cls_region : string
}.

(** [published_date] is in milliseconds since the epoch. *)
Record Article := {
  url : string;
  is_paywalled : bool;
  published_date : Z;
  classification : option Classification
}.

Record Preferences := {
  reading_level : Q;
  information_density : Q;
  bias_threshold : Q;
  propaganda_threshold : Q;
  max_length : Z;
  min_length : Z;
  topics : list string;
  regions : list string;
  show_paywalled : bool;
  topics_filter_type : string;
  max_age_days : Z
}.

(** A condition on the array field [classification.topics]. *)
Inductive ArrayCond :=
| Q_all (values : list string)
| Q_in (values : list string).

(** The query document: a field is [None] when the key is not set. *)
Record Query := {
  q_is_paywalled : option bool;
  q_published_date_gte : option Z;
  q_topics : option ArrayCond;
  q_region_in : option (list string);
  q_length_gte : option Z;
  q_length_lte : option Z
}.

Definition ms_per_day : Z := 86400000.

(** [minDate.setDate(minDate.getDate() - days)], on days of 24 hours. *)
Definition min_date (now days : Z) : Z := (now - days * ms_per_day)%Z.

Definition build_query (preferences : Preferences) (now : Z) : Query := {|
  q_is_paywalled :=
    if show_paywalled preferences then None else Some false;
  q_published_date_gte :=
    if (0 <? max_age_days preferences)%Z
    then Some (min_date now (max_age_days preferences)) else None;
  q_topics :=
    if (0 <? Py.len (topics preferences))%Z then
      if String.eqb (topics_filter_type preferences) "AND"
      then Some (Q_all (topics preferences))
      else Some (Q_in (topics preferences))
    else None;
  q_region_in :=
    if (0 <? Py.len (regions preferences))%Z
    then Some (regions preferences) else None;
  q_length_gte :=
    if (0 <? min_length preferences)%Z
    then Some (min_length preferences) else None;
  q_length_lte :=
    if (max_length preferences <? 5000)%Z
    then Some (max_length preferences) else None
|}.

Definition mem (x : string) (xs : list string) : bool :=
  existsb (String.eqb x) xs.

(** [$all] and [$in] on an array field; neither matches with an empty
    list of values. *)
Definition array_matches (cond : ArrayCond) (field : list string) : bool :=
  match cond with
  | Q_all values =>
      match values with
      | [] => false
      | _ => forallb (fun v => mem v field) values
      end
  | Q_in values => existsb (fun x => mem x values) field
  end.

(** The topics of an article; a document without the field has none. *)
Definition article_topics (article : Article) : list string :=
  match classification article with
  | Some c => cls_topics c
  | None => []
  end.

Definition matches_paywall (q : Query) (article : Article) : bool :=
  match q_is_paywalled q with
  | Some b => Bool.eqb (is_paywalled article) b
  | None => true
  end.

Definition matches_date (q : Query) (article : Article) : bool :=
  match q_published_date_gte q with
  | Some d => (d <=? published_date article)%Z
  | None => true
  end.

Definition matches_topics (q : Query) (article : Article) : bool :=
  match q_topics q with
  | Some cond => array_matches cond (article_topics article)
  | None => true
  end.

Definition matches_region (q : Query) (article : Article) : bool :=
  match q_region_in q with
  | Some values =>
      match classification article with
      | Some c => mem (cls_region c) values
      | None => false
      end
  | None => true
  end.

Definition matches_length (q : Query) (article : Article) : bool :=
  match q_length_gte q, q_length_lte q with
  | None, None => true
  | lo, hi =>
      match classification article with
      | Some c =>
          match lo with Some n => (n <=? cls_length c)%Z | None => true end
          && match hi with Some n => (cls_length c <=? n)%Z | None => true end
      | None => false
      end
  end.

(** A document matches a query when it matches every key of it. *)
Definition matches (q : Query) (article : Article) : bool :=
  matches_paywall q article && matches_date q article
  && matches_topics q article && matches_region q article
  && matches_length q article.

(** [.sort("published_date", -1)]: newest first. The database leaves the
    order of articles of one date open; this insertion sort is one of the
    sorts it may apply, the one that keeps them in the order they had. *)
Fixpoint insert_desc (a : Article) (sorted : list Article) : list Article :=
  match sorted with
  | [] => [a]
  | b :: rest =>
      if (published_date b <=? published_date a)%Z then a :: sorted
      else b :: insert_desc a rest
  end.

Definition sort_desc (articles : list Article) : list Article :=
  foldr insert_desc [] articles.

(** [.limit(n)]: zero means no limit. *)
Definition cursor_limit (n : nat) (articles : list Article) : list Article :=
  match n with
  | O => articles
  | _ => take n articles
  end.

(** [db.articles.find(query).sort(...).skip(skip).limit(limit).toArray()] *)
Definition find_articles (q : Query) (skip limit : nat)
    (collection : list Article) : list Article :=
  cursor_limit limit (drop skip (sort_desc (List.filter (matches q) collection))).

Definition ge (a b : Q) : bool := Qle_bool b a.
Definition le (a b : Q) : bool := Qle_bool a b.

(** The callback of the post-query [articles.filter]. *)
Definition within_thresholds (preferences : Preferences) (article : Article) : bool :=
  match classification article with
  | None => false
  | Some c =>
      ge (cls_reading_level c) (reading_level preferences - 2)
      && le (cls_reading_level c) (reading_level preferences + 2)
      && ge (cls_information_density c) (information_density preferences - 2)
      && le (cls_information_density c) (information_density preferences + 2)
      && ge (cls_bias_score c) (bias_threshold preferences)
      && ge (cls_propaganda_score c) (propaganda_threshold preferences)
  end.

(** The whole query pattern: base query, then the numeric post-filter. *)
Definition filter_articles (preferences : Preferences) (now : Z)
    (skip limit : nat) (collection : list Article) : list Article :=
  List.filter (within_thresholds preferences)
    (find_articles (build_query preferences now) skip limit collection).

(** ** Reference definitions, in the words of the specification *)

Module Spec.

Definition clamp (x lo hi : Q) : Q := Qmax lo (Qmin x hi).

Definition in_range (x : Q) : Prop := 1 <= x /\ x <= 10.

(** [clamp(avg_words_per_sentence / 3, 1, 10)] with
    [avg_words_per_sentence = total_words / sentence_count], and 5 when
    there is no sentence. *)
Definition reading_level (total_words sentence_count : Z) : Q :=
  if (sentence_count =? 0)%Z then 5
  else clamp ((int total_words / int sentence_count) / 3) 1 10.

(** 10 when the counts are equal, else
    [clamp(10 - imbalance * 9, 1, 10)] with
    [imbalance = |left - right| / (left + right)]. *)
Definition bias_score (left_count right_count : Z) : Q :=
  if (left_count =? right_count)%Z then 10
  else
    clamp (10 - (int (Z.abs (left_count - right_count))
                 / int (left_count + right_count)) * 9) 1 10.

(** 5 without a word, else [clamp(10 - density, 1, 10)] with
    [density = indicator_count / (word_count / 100)]. *)
Definition propaganda_score (indicator_count word_count : Z) : Q :=
  if (word_count =? 0)%Z then 5
  else clamp (10 - int indicator_count / (int word_count / 100)) 1 10.

End Spec.

(** The indicator table without its two upper-case entries. *)
Definition lowercase_indicators : list string :=
  List.filter (fun indicator => negb (mem indicator ["BREAKING"; "EXCLUSIVE"]))
    propaganda_indicators.

Definition left_count (text : string) : Z :=
  count_present left_bias_terms (Py.lower text).

Definition right_count (text : string) : Z :=
  count_present right_bias_terms (Py.lower text).

Definition indicator_count (text : string) : Z :=
  count_present propaganda_indicators (Py.lower text).

(** [len(re.findall(r'\w+', text))] *)
Definition word_count (text : string) : Z := Py.len (Py.findall_words text).

(** The test of the loop of [extract_topics] on one dictionary item. *)
Definition item_matches (text : string) (item : string * list string) : bool :=
  any_keyword (snd item) text.

(** A keyword of the list occurs in the text. *)
Definition keyword_occurs (keywords : list string) (text : string) : Prop :=
  exists keyword, keyword ∈ keywords /\ Py.contains keyword text = true.

(** No keyword of any topic occurs in the text. *)
Definition no_keyword_matches (text : string) : Prop :=
  forall topic keywords,
    (topic, keywords) ∈ topic_keywords -> ~ keyword_occurs keywords text.

(** Newest first: each article is at least as recent as the next one. *)
Definition newer_or_equal (a b : Article) : Prop :=
  (published_date b <= published_date a)%Z.

Definition newest_first (articles : list Article) : Prop :=
  Sorted newer_or_equal articles.

(** Stage A and Stage B as predicates on one article. *)
Definition stage_a (preferences : Preferences) (now : Z) (article : Article) : bool :=
  matches (build_query preferences now) article.

Definition survives (preferences : Preferences) (now : Z) (article : Article) : bool :=
  stage_a preferences now article && within_thresholds preferences article.

(** The page of the Stage-A survivors that the cursor returns. *)
Definition page (preferences : Preferences) (now : Z) (skip limit : nat)
    (collection : list Article) : list Article :=
  cursor_limit limit (drop skip (List.filter (stage_a preferences now) collection)).

(** ** Sample inputs *)

Module Sample.

(** A splitter that is not available, and one that answers with given
    sentences. *)
Definition unavailable : tokenizer := fun _ => None.
Definition answering (sentences : list string) : tokenizer :=
  fun _ => Some sentences.

Definition cat_sentences : list string :=
  ["The cat sat."; "The cat sat on the mat."].

Definition cat_text : string := "The cat sat. The cat sat on the mat.".

Fixpoint filler (n : nat) : string :=
  match n with
  | O => EmptyString
  | S k => " word" +:+ filler k
  end.

(** A text of 100 words, two of them indicators once lowercased. *)
Definition hundred_words : string := "You MUST Always" +:+ filler 97.

Definition preferences_with (filter_type : string) (wanted : list string)
    : Preferences := {|
  reading_level := 5;
  information_density := 5;
  bias_threshold := 5;
  propaganda_threshold := 5;
  max_length := 5000;
  min_length := 0;
  topics := wanted;
  regions := [];
  show_paywalled := true;
  topics_filter_type := filter_type;
  max_age_days := 30
|}.

Definition classified (level bias : Q) (labels : list string) : Classification := {|
  cls_reading_level := level;
  cls_information_density := 5;
  cls_bias_score := bias;
  cls_propaganda_score := 9;
  cls_length := 400;
  cls_topics := labels;
  cls_region := "europe"
|}.

Definition article (name : string) (date : Z) (c : option Classification)
    : Article := {|
  url := name;
  is_paywalled := false;
  published_date := date;
  classification := c
|}.

Definition day (n : Z) : Z := (n * ms_per_day)%Z.

Definition tech_article : Article :=
  article "tech" (day 99) (Some (classified 5 5 ["technology"])).

Definition second_article : Article :=
  article "second" (day 98) (Some (classified 7 10 ["health"; "technology"])).

Definition two_articles : list Article := [tech_article; second_article].

End Sample.

(** ** Preference controls of the front end *)

(** [xs.indexOf(x)]: the position of the first occurrence, [None] for -1. *)
Fixpoint index_of (x : string) (xs : list string) : option nat :=
  match xs with
  | [] => None
  | y :: rest => if String.eqb y x then Some O else S <$> index_of x rest
  end.

(** The body of [handleTopicToggle] and [handleRegionToggle] on the copied
    array: [splice(index, 1)] when the value is there, [push] otherwise. *)
Definition toggle (xs : list string) (x : string) : list string :=
  match index_of x xs with
  | Some index => delete index xs
  | None => xs ++ [x]
  end.

Definition set_topics (prev : Preferences) (selected : list string) : Preferences := {|
  reading_level := reading_level prev;
  information_density := information_density prev;
  bias_threshold := bias_threshold prev;
  propaganda_threshold := propaganda_threshold prev;
  max_length := max_length prev;
  min_length := min_length prev;
  topics := selected;
  regions := regions prev;
  show_paywalled := show_paywalled prev;
  topics_filter_type := topics_filter_type prev;
  max_age_days := max_age_days prev
|}.

Definition set_regions (prev : Preferences) (selected : list string) : Preferences := {|
  reading_level := reading_level prev;
  information_density := information_density prev;
  bias_threshold := bias_threshold prev;
  propaganda_threshold := propaganda_threshold prev;
  max_length := max_length prev;
  min_length := min_length prev;
  topics := topics prev;
  regions := selected;
  show_paywalled := show_paywalled prev;
  topics_filter_type := topics_filter_type prev;
  max_age_days := max_age_days prev
|}.

(** [{ ...prev, topics }] and [{ ...prev, regions }] after the toggle. *)
Definition handleTopicToggle (topic : string) (prev : Preferences) : Preferences :=
  set_topics prev (toggle (topics prev) topic).

Definition handleRegionToggle (region : string) (prev : Preferences) : Preferences :=
  set_regions prev (toggle (regions prev) region).

(** The distinct tokens and all tokens of [calculate_information_density]. *)
Definition density_words (text : string) : list string :=
  Py.findall_words (Py.lower text).

(** A character that is not in the string. *)
Fixpoint free_of (c : ascii) (s : string) : bool :=
  match s with
  | EmptyString => true
  | String d rest => negb (Ascii.eqb c d) && free_of c rest
  end.

(** The same preferences with another [topics_filter_type]. *)
Definition with_filter_type (prev : Preferences) (filter_type : string) : Preferences := {|
  reading_level := reading_level prev;
  information_density := information_density prev;
  bias_threshold := bias_threshold prev;
  propaganda_threshold := propaganda_threshold prev;
  max_length := max_length prev;
  min_length := min_length prev;
  topics := topics prev;
  regions := regions prev;
  show_paywalled := show_paywalled prev;
  topics_filter_type := filter_type;
  max_age_days := max_age_days prev
|}.

(** What the keys of the base query ask of an article, key by key. *)
Definition paywall_ok (preferences : Preferences) (article : Article) : Prop :=
  show_paywalled preferences = false -> is_paywalled article = false.

Definition date_ok (preferences : Preferences) (now : Z) (article : Article) : Prop :=
  (0 < max_age_days preferences)%Z ->
  (min_date now (max_age_days preferences) <= published_date article)%Z.

Definition topics_ok (preferences : Preferences) (article : Article) : Prop :=
  topics preferences <> [] ->
  if String.eqb (topics_filter_type preferences) "AND"
  then list_to_set (topics preferences)
       ⊆@{gset string} list_to_set (article_topics article)
  else list_to_set (article_topics article) ∩ list_to_set (topics preferences)
       ≠@{gset string} ∅.

Definition region_ok (preferences : Preferences) (article : Article) : Prop :=
  regions preferences <> [] ->
  exists c, classification article = Some c /\ cls_region c ∈ regions preferences.

Definition length_ok (preferences : Preferences) (article : Article) : Prop :=
  (0 < min_length preferences)%Z \/ (max_length preferences < 5000)%Z ->
  exists c, classification article = Some c
            /\ ((0 < min_length preferences)%Z ->
                (min_length preferences <= cls_length c)%Z)
            /\ ((max_length preferences < 5000)%Z ->
                (cls_length c <= max_length preferences)%Z).

(** ** Sorts of the database *)

(** A sort the database may apply for [.sort("published_date", -1)]: any
    rearrangement of the documents that is newest first. The order of
    documents of one date is left open. *)
Definition sorts_newest_first (sort : list Article -> list Article) : Prop :=
  forall articles, sort articles ≡ₚ articles /\ newest_first (sort articles).

(** The query pattern with the sort of the database as a parameter. *)
Definition find_articles_with (sort : list Article -> list Article) (q : Query)
    (skip limit : nat) (collection : list Article) : list Article :=
  cursor_limit limit (drop skip (sort (List.filter (matches q) collection))).

Definition filter_articles_with (sort : list Article -> list Article)
    (preferences : Preferences) (now : Z) (skip limit : nat)
    (collection : list Article) : list Article :=
  List.filter (within_thresholds preferences)
    (find_articles_with sort (build_query preferences now) skip limit collection).

(** Dates from the newest to the oldest. *)
Definition descending (x y : Z) : Prop := (y <= x)%Z.

(** No two articles of the collection have the same date. *)
Definition distinct_dates (collection : list Article) : Prop :=
  NoDup (published_date <$> collection).

(** A sort that puts an article behind the earlier ones of its date: it
    reverses articles of one date. *)
Fixpoint insert_behind (a : Article) (sorted : list Article) : list Article :=
  match sorted with
  | [] => [a]
  | b :: rest =>
      if (published_date b <? published_date a)%Z then a :: sorted
      else b :: insert_behind a rest
  end.

Definition sort_reversing_ties (articles : list Article) : list Article :=
  foldr insert_behind [] articles.

(** Two articles of one date. *)
Definition same_day_articles : list Article :=
  [Sample.article "first" (Sample.day 99) (Some (Sample.classified 5 5 ["health"]));
   Sample.article "second" (Sample.day 99) (Some (Sample.classified 5 5 ["world"]))].

(** ** Arithmetic of the clamp *)

Lemma py_max_spec a b : Py.max a b == Qmax a b.
Proof.
  unfold Py.max. destruct (Qle_bool b a) eqn:E.
  - apply Qle_bool_iff in E. symmetry. now apply Q.max_l.
  - assert (~ b <= a) as H by (rewrite <- Qle_bool_iff; congruence).
    symmetry. apply Q.max_r. lra.
Qed.

Lemma py_min_spec a b : Py.min a b == Qmin a b.
Proof.
  unfold Py.min. destruct (Qle_bool a b) eqn:E.
  - apply Qle_bool_iff in E. symmetry. now apply Q.min_l.
  - assert (~ a <= b) as H by (rewrite <- Qle_bool_iff; congruence).
    symmetry. apply Q.min_r. lra.
Qed.

Lemma py_clamp_bounds x : Spec.in_range (Py.min 10 (Py.max 1 x)).
Proof.
  unfold Spec.in_range, Py.min, Py.max.
  destruct (Qle_bool x 1) eqn:E1.
  - vm_compute. split; discriminate.
  - assert (~ x <= 1) as H1 by (rewrite <- Qle_bool_iff; congruence).
    destruct (Qle_bool 10 x) eqn:E2.
    + vm_compute. split; discriminate.
    + assert (~ 10 <= x) as H2 by (rewrite <- Qle_bool_iff; congruence).
      lra.
Qed.

Lemma py_clamp_spec x : Py.min 10 (Py.max 1 x) == Spec.clamp x 1 10.
Proof.
  unfold Spec.clamp. rewrite py_min_spec, py_max_spec.
  destruct (Q.max_spec 1 x) as [[H1 ->] | [H1 ->]];
    destruct (Q.min_spec x 10) as [[H2 ->] | [H2 ->]].
  - rewrite Q.min_r by lra. rewrite Q.max_r by lra. reflexivity.
  - rewrite Q.min_l by lra. rewrite Q.max_r by lra. reflexivity.
  - rewrite Q.min_r by lra. rewrite Q.max_l by lra. reflexivity.
  - rewrite Q.min_l by lra. rewrite Q.max_r by lra. reflexivity.
Qed.

Lemma five_in_range : Spec.in_range 5.
Proof. unfold Spec.in_range. lra. Qed.

Lemma ten_in_range : Spec.in_range 10.
Proof. unfold Spec.in_range. lra. Qed.

Lemma default_in_range (o : option Q) :
  (forall x, o = Some x -> Spec.in_range x) -> Spec.in_range (default 5 o).
Proof.
  intros H. destruct o as [x|]; simpl.
  - now apply H.
  - apply five_in_range.
Qed.

Lemma truediv_nonzero a b : ~ b == 0 -> Py.truediv a b = Some (a / b).
Proof.
  intros H. unfold Py.truediv.
  destruct (Qeq_bool b 0) eqn:E; [|reflexivity].
  apply Qeq_bool_iff in E. contradiction.
Qed.

Lemma int_nonzero n : n <> 0%Z -> ~ int n == 0.
Proof.
  intros H E. unfold int, inject_Z, Qeq in E. simpl in E. lia.
Qed.

Lemma reading_level_of_in_range sentences x :
  reading_level_of sentences = Some x -> Spec.in_range x.
Proof.
  unfold reading_level_of. destruct sentences as [|s rest].
  - intros [= <-]. apply five_in_range.
  - destruct (Py.truediv _ _) as [avg|]; simpl; [|discriminate].
    intros [= <-]. apply py_clamp_bounds.
Qed.

Lemma calculate_reading_level_in_range (st ft : tokenizer) text :
  Spec.in_range (calculate_reading_level st ft text).
Proof.
  unfold calculate_reading_level.
  destruct (Py.is_empty text); [apply five_in_range|].
  apply default_in_range. intros x.
  destruct (sentences_of st ft text) as [sentences|]; simpl; [|discriminate].
  apply reading_level_of_in_range.
Qed.

Lemma calculate_information_density_in_range text :
  Spec.in_range (calculate_information_density text).
Proof.
  unfold calculate_information_density.
  destruct (Py.is_empty text); [apply five_in_range|].
  apply default_in_range. intros x.
  destruct (Py.findall_words (Py.lower text)) as [|w ws].
  - intros [= <-]. apply five_in_range.
  - destruct (Py.truediv _ _) as [ratio|]; simpl; [|discriminate].
    intros [= <-]. apply py_clamp_bounds.
Qed.

Lemma estimate_bias_in_range text : Spec.in_range (estimate_bias text).
Proof.
  unfold estimate_bias.
  destruct (Py.is_empty text); [apply five_in_range|].
  apply default_in_range. intros x. cbv zeta.
  destruct (_ =? _)%Z; [intros [= <-]; apply ten_in_range|].
  destruct (_ =? _)%Z; [intros [= <-]; apply ten_in_range|].
  destruct (Py.truediv _ _) as [imbalance|]; simpl; [|discriminate].
  intros [= <-]. apply py_clamp_bounds.
Qed.

Lemma estimate_propaganda_with_in_range indicators text :
  Spec.in_range (estimate_propaganda_with indicators text).
Proof.
  unfold estimate_propaganda_with.
  destruct (Py.is_empty text); [apply five_in_range|].
  apply default_in_range. intros x. cbv zeta.
  destruct (_ =? _)%Z; [intros [= <-]; apply five_in_range|].
  destruct (Py.truediv _ 100) as [per_hundred|]; simpl; [|discriminate].
  destruct (Py.truediv _ _) as [density|]; simpl; [|discriminate].
  intros [= <-]. apply py_clamp_bounds.
Qed.

(** C1. Every calculator returns a value of the closed interval [1,10],
    on every text and with any sentence splitters: a formula branch is
    clamped, and a default branch returns 5 or 10. *)
Theorem scores_in_range (sent_tokenize simple_tokenize : tokenizer) (text : string) :
  Spec.in_range (calculate_reading_level sent_tokenize simple_tokenize text)
  /\ Spec.in_range (calculate_information_density text)
  /\ Spec.in_range (estimate_bias text)
  /\ Spec.in_range (estimate_propaganda text).
Proof.
  split; [apply calculate_reading_level_in_range|].
  split; [apply calculate_information_density_in_range|].
  split; [apply estimate_bias_in_range|].
  apply estimate_propaganda_with_in_range.
Qed.

(** C4. On the empty text every calculator returns the default 5, before
    any tokenizing or counting: the result does not depend on the sentence
    splitters, which are never called. *)
Theorem empty_text_defaults (sent_tokenize simple_tokenize : tokenizer) :
  calculate_reading_level sent_tokenize simple_tokenize "" = 5
  /\ calculate_information_density "" = 5
  /\ estimate_bias "" = 5
  /\ estimate_propaganda "" = 5.
Proof. repeat split. Qed.

(** ** Reading level *)

Lemma reading_level_of_reference sentences :
  exists x, reading_level_of sentences = Some x
            /\ x == Spec.reading_level (total_words sentences) (Py.len sentences).
Proof.
  destruct sentences as [|s rest].
  - exists 5. split; reflexivity.
  - unfold reading_level_of, Spec.reading_level.
    assert (Py.len (s :: rest) <> 0%Z) as Hlen by (unfold Py.len; simpl; lia).
    rewrite (truediv_nonzero _ _ (int_nonzero _ Hlen)). simpl mbind.
    destruct (Z.eqb_spec (Py.len (s :: rest)) 0) as [E|_]; [contradiction|].
    eexists. split; [reflexivity|]. apply py_clamp_spec.
Qed.

(** C5. [calculate_reading_level] is the reference definition: 5 on the
    empty text; on a text that is not empty and that the splitter in use
    cuts into [sentences], 5 when there is no sentence and otherwise
    [clamp(avg / 3, 1, 10)] with [avg] the total of the words over the
    number of sentences; the sentences "The cat sat." and "The cat sat on
    the mat." give 1.5. *)
Theorem calculate_reading_level_reference (sent_tokenize simple_tokenize : tokenizer) :
  calculate_reading_level sent_tokenize simple_tokenize "" = 5
  /\ (forall text sentences,
        text <> EmptyString ->
        sentences_of sent_tokenize simple_tokenize text = Some sentences ->
        calculate_reading_level sent_tokenize simple_tokenize text
        == Spec.reading_level (total_words sentences) (Py.len sentences))
  /\ (forall text,
        text <> EmptyString ->
        sentences_of sent_tokenize simple_tokenize text
        = Some ["The cat sat."; "The cat sat on the mat."] ->
        map words_in ["The cat sat."; "The cat sat on the mat."] = [3%Z; 6%Z]
        /\ calculate_reading_level sent_tokenize simple_tokenize text == 3 # 2).
Proof.
  split; [reflexivity|]. split.
  - intros text sentences Hne Hs. unfold calculate_reading_level.
    destruct text; [congruence|]. simpl Py.is_empty. cbv iota.
    rewrite Hs. simpl mbind.
    destruct (reading_level_of_reference sentences) as (x & -> & Hx).
    exact Hx.
  - intros text Hne Hs. split; [reflexivity|].
    unfold calculate_reading_level.
    destruct text; [congruence|]. simpl Py.is_empty. cbv iota.
    rewrite Hs. reflexivity.
Qed.

Lemma calculate_reading_level_reference_witness :
  calculate_reading_level (Sample.answering Sample.cat_sentences)
    Sample.unavailable Sample.cat_text == 3 # 2
  /\ calculate_reading_level Sample.unavailable (Sample.answering [])
       Sample.cat_text == 5.
Proof.
  split.
  - apply (proj2 (proj2 (calculate_reading_level_reference
                           (Sample.answering Sample.cat_sentences)
                           Sample.unavailable))).
    + discriminate.
    + reflexivity.
  - apply (proj1 (proj2 (calculate_reading_level_reference
                           Sample.unavailable (Sample.answering [])))
             Sample.cat_text []).
    + discriminate.
    + reflexivity.
Defined.

(** When both splitters raise, the outer [except] answers 5. *)
Lemma calculate_reading_level_both_raise (st ft : tokenizer) text :
  st text = None -> ft text = None -> calculate_reading_level st ft text = 5.
Proof.
  intros Hs Hf. unfold calculate_reading_level, sentences_of.
  rewrite Hs, Hf. now destruct (Py.is_empty text).
Qed.

(** ** Bias score *)

Lemma estimate_bias_nonempty text :
  text <> EmptyString ->
  estimate_bias text == Spec.bias_score (left_count text) (right_count text).
Proof.
  intros Hne. unfold estimate_bias, Spec.bias_score.
  destruct text; [congruence|]. simpl Py.is_empty. cbv iota zeta.
  fold (left_count (String a text)). fold (right_count (String a text)).
  destruct (Z.eqb_spec (left_count (String a text)) (right_count (String a text)))
    as [E|E]; [reflexivity|].
  assert (0 <= left_count (String a text))%Z as Hl.
  { unfold left_count, count_present.
    induction (map _ left_bias_terms) as [|[] bs IH]; simpl; lia. }
  assert (0 <= right_count (String a text))%Z as Hr.
  { unfold right_count, count_present.
    induction (map _ right_bias_terms) as [|[] bs IH]; simpl; lia. }
  destruct (Z.eqb_spec (left_count (String a text) + right_count (String a text)) 0)
    as [E0|E0]; [lia|].
  rewrite (truediv_nonzero _ _ (int_nonzero _ E0)). simpl.
  apply py_clamp_spec.
Qed.

(** C3, as the specification states it, fails on the empty text: both
    counts are zero there, and the result is the default 5, not 10. *)
Lemma estimate_bias_empty_text_is_not_neutral :
  left_count "" = right_count "" /\ ~ estimate_bias "" == 10.
Proof. split; [reflexivity|]. vm_compute. discriminate. Qed.

(** C3, amended. On every text that is not empty, [estimate_bias] is the
    reference definition over the two counts of terms present in the
    lowercased text: 10 when the counts are equal (both zero included),
    else [clamp(10 - (|left - right| / (left + right)) * 9, 1, 10)]; with
    two left terms and no right term the result is 1. *)
Theorem estimate_bias_reference (text : string) :
  text <> EmptyString ->
  estimate_bias text == Spec.bias_score (left_count text) (right_count text)
  /\ (left_count text = right_count text -> estimate_bias text == 10)
  /\ (left_count text = 2%Z -> right_count text = 0%Z -> estimate_bias text == 1).
Proof.
  intros Hne. pose proof (estimate_bias_nonempty text Hne) as H.
  split; [exact H|]. split.
  - intros E. rewrite H. unfold Spec.bias_score.
    rewrite E, Z.eqb_refl. reflexivity.
  - intros El Er. rewrite H, El, Er. reflexivity.
Qed.

Lemma estimate_bias_reference_witness :
  estimate_bias "A liberal and progressive agenda" == 1
  /\ estimate_bias "Liberal and conservative voters" == 10
  /\ estimate_bias "The weather today" == 10.
Proof.
  split; [|split].
  - apply (estimate_bias_reference "A liberal and progressive agenda");
      [discriminate | reflexivity | reflexivity].
  - apply (estimate_bias_reference "Liberal and conservative voters");
      [discriminate | reflexivity].
  - apply (estimate_bias_reference "The weather today");
      [discriminate | reflexivity].
Defined.

(** Each term counts once, however often it occurs. *)
Example left_count_repeated_term :
  left_count "liberal, liberal and LIBERAL" = 1%Z.
Proof. reflexivity. Qed.

(** ** Propaganda score *)

Lemma estimate_propaganda_with_reference indicators text :
  estimate_propaganda_with indicators text
  == Spec.propaganda_score (count_present indicators (Py.lower text))
       (word_count (Py.lower text)).
Proof.
  unfold estimate_propaganda_with, Spec.propaganda_score.
  destruct text as [|a text]; [reflexivity|].
  simpl Py.is_empty. cbv iota zeta.
  fold (word_count (Py.lower (String a text))).
  destruct (Z.eqb_spec (word_count (Py.lower (String a text))) 0) as [E|E];
    [reflexivity|].
  assert (~ int (word_count (Py.lower (String a text))) == 0) as Hw
    by now apply int_nonzero.
  rewrite truediv_nonzero by (intros H; lra). simpl mbind.
  rewrite truediv_nonzero.
  - simpl. apply py_clamp_spec.
  - intros H. apply Hw. 
    assert (int (word_count (Py.lower (String a text))) / 100 * 100
            == int (word_count (Py.lower (String a text)))) as Hd
      by (field).
    rewrite <- Hd, H. reflexivity.
Qed.

(** C6. [estimate_propaganda] is the reference definition: 5 on every
    text without a word token; otherwise [clamp(10 - density, 1, 10)] with
    [density = indicator_count / (word_count / 100)], where
    [indicator_count] counts the indicators present in the lowercased
    text and [word_count] the word tokens of the lowercased text, as the
    code does; two indicators in a text of 100 words give 8. *)
Theorem estimate_propaganda_reference (text : string) :
  estimate_propaganda text
  == Spec.propaganda_score (indicator_count text) (word_count (Py.lower text))
  /\ (word_count (Py.lower text) = 0%Z -> estimate_propaganda text == 5)
  /\ (word_count (Py.lower text) = 100%Z -> indicator_count text = 2%Z ->
      estimate_propaganda text == 8).
Proof.
  pose proof (estimate_propaganda_with_reference propaganda_indicators text) as H.
  fold (estimate_propaganda text) in H. fold (indicator_count text) in H.
  split; [exact H|]. split.
  - intros E. rewrite H, E. reflexivity.
  - intros Ew Ei. rewrite H, Ew, Ei. reflexivity.
Qed.

Lemma estimate_propaganda_reference_witness :
  estimate_propaganda "?? ... !!" == 5
  /\ estimate_propaganda Sample.hundred_words == 8.
Proof.
  split.
  - apply (estimate_propaganda_reference "?? ... !!"). reflexivity.
  - apply (estimate_propaganda_reference Sample.hundred_words);
      vm_compute; reflexivity.
Defined.

(** ** Upper-case indicators *)

Lemma lower_char_has_no_lowercase c : Py.has_lowercase (Py.lower_char c) = false.
Proof. destruct c as [[] [] [] [] [] [] [] []]; reflexivity. Qed.

(** A term that starts with a capital never occurs in a lowercased text. *)
Lemma contains_capital_in_lower (u : ascii) (term text : string) :
  Py.has_lowercase u = true ->
  Py.contains (String u term) (Py.lower text) = false.
Proof.
  intros Hu. induction text as [|c rest IH]; [reflexivity|].
  simpl. rewrite IH. destruct (ascii_dec u (Py.lower_char c)) as [E|_].
  - rewrite E, lower_char_has_no_lowercase in Hu. discriminate.
  - reflexivity.
Qed.

Lemma count_present_lowercase_indicators text :
  count_present propaganda_indicators (Py.lower text)
  = count_present lowercase_indicators (Py.lower text).
Proof.
  assert (lowercase_indicators = firstn 16 propaganda_indicators) as ->
    by reflexivity.
  unfold count_present, propaganda_indicators. cbn [firstn map Py.sum_bools].
  rewrite (contains_capital_in_lower "B" "REAKING" text) by reflexivity.
  rewrite (contains_capital_in_lower "E" "XCLUSIVE" text) by reflexivity.
  cbn [Z.b2z]. lia.
Qed.

(** C10. The indicators "BREAKING" and "EXCLUSIVE" never count: neither
    occurs in a lowercased text, and [estimate_propaganda] computes the
    value of its variant without the two. *)
Theorem uppercase_indicators_never_count (text : string) :
  Py.contains "BREAKING" (Py.lower text) = false
  /\ Py.contains "EXCLUSIVE" (Py.lower text) = false
  /\ lowercase_indicators
     = ["must"; "always"; "never"; "every"; "all"; "none"; "everyone";
        "nobody"; "undoubtedly"; "certainly"; "absolutely"; "obviously";
        "clearly"; "definitely"; "!!"; "??"]
  /\ estimate_propaganda text = estimate_propaganda_with lowercase_indicators text.
Proof.
  split; [now apply contains_capital_in_lower|].
  split; [now apply contains_capital_in_lower|].
  split; [reflexivity|].
  unfold estimate_propaganda, estimate_propaganda_with.
  now rewrite count_present_lowercase_indicators.
Qed.

(** An all-caps headline scores as the same words would without it. *)
Example breaking_headline_scores_ten :
  estimate_propaganda "BREAKING EXCLUSIVE report on the harvest" == 10.
Proof. reflexivity. Qed.

(** ** Topics *)

Lemma append_cons c s t : String c s +:+ t = String c (s +:+ t).
Proof. reflexivity. Qed.

Lemma prefix_append needle hay :
  String.prefix needle hay = true <-> exists post, hay = needle +:+ post.
Proof.
  revert hay. induction needle as [|c needle IH]; intros [|d hay]; simpl.
  - split; eauto.
  - split; eauto.
  - split; [discriminate | intros [post H]; discriminate].
  - setoid_rewrite append_cons. destruct (ascii_dec c d) as [->|Hcd].
    + rewrite IH. split; intros [post H]; exists post; congruence.
    + split; [discriminate | intros [post H]; congruence].
Qed.

(** [Py.contains] is the substring test. *)
Lemma contains_substring needle hay :
  Py.contains needle hay = true
  <-> exists pre post, hay = pre +:+ needle +:+ post.
Proof.
  induction hay as [|d hay IH].
  - cbn [Py.contains]. rewrite orb_false_r, prefix_append. split.
    + intros [post H]. exists EmptyString, post. exact H.
    + intros (pre & post & H). destruct pre; [eauto | discriminate].
  - cbn [Py.contains]. rewrite orb_true_iff, prefix_append, IH. split.
    + intros [[post H] | (pre & post & H)].
      * exists EmptyString, post. exact H.
      * exists (String d pre), post. rewrite append_cons. congruence.
    + intros (pre & post & H). destruct pre as [|c pre].
      * left. exists post. exact H.
      * right. exists pre, post. rewrite append_cons in H. congruence.
Qed.

Lemma any_keyword_occurs keywords text :
  any_keyword keywords text = true <-> keyword_occurs keywords text.
Proof.
  unfold any_keyword, keyword_occurs. rewrite existsb_exists.
  split; intros (k & Hk & H); exists k; split; auto; now apply list_elem_of_In.
Qed.

Lemma detect_topics_filter items text detected :
  detect_topics items text detected
  = detected ++ map fst (List.filter (item_matches text) items).
Proof.
  revert detected. induction items as [|[topic keywords] rest IH]; intros detected.
  - simpl. now rewrite app_nil_r.
  - cbn [detect_topics List.filter]. rewrite IH. unfold item_matches at 2.
    cbn [snd]. destruct (any_keyword keywords text); [|reflexivity].
    now rewrite <- app_assoc.
Qed.

Lemma detected_topic_iff items text topic keywords :
  List.NoDup (map fst items) ->
  In (topic, keywords) items ->
  In topic (map fst (List.filter (item_matches text) items))
  <-> any_keyword keywords text = true.
Proof.
  intros Hnd Hin. rewrite in_map_iff. split.
  - intros ([topic' keywords'] & Ht & Hf). simpl in Ht. subst topic'.
    apply filter_In in Hf as [Hin' Hm].
    enough (keywords' = keywords) as <- by exact Hm.
    clear Hm. induction items as [|[t k] rest IH]; [contradiction|].
    simpl in Hnd. apply List.NoDup_cons_iff in Hnd as [Hnot Hnd].
    destruct Hin as [E | Hin], Hin' as [E' | Hin'].
    + congruence.
    + exfalso. apply Hnot. apply in_map_iff.
      exists (topic, keywords'). split; [simpl; congruence | exact Hin'].
    + exfalso. apply Hnot. apply in_map_iff.
      exists (topic, keywords). split; [simpl; congruence | exact Hin].
    + now apply IH.
  - intros Hm. exists (topic, keywords). split; [reflexivity|].
    apply filter_In. auto.
Qed.

Lemma topic_keywords_nodup : List.NoDup (map fst topic_keywords).
Proof.
  simpl. repeat (apply List.NoDup_cons; [simpl; intuition discriminate|]).
  apply List.NoDup_nil.
Qed.

Lemma filter_nil_iff {A} (f : A -> bool) (l : list A) :
  List.filter f l = [] <-> forall x, In x l -> f x = false.
Proof.
  induction l as [|a l IH]; simpl.
  - split; [intros _ x [] | reflexivity].
  - destruct (f a) eqn:E.
    + split; [discriminate|]. intros H. specialize (H a (or_introl eq_refl)).
      congruence.
    + rewrite IH. split.
      * intros H x [<- | Hx]; auto.
      * intros H x Hx. apply H. now right.
Qed.

Lemma no_keyword_matches_filter text :
  no_keyword_matches text
  <-> List.filter (item_matches text) topic_keywords = [].
Proof.
  rewrite filter_nil_iff. unfold no_keyword_matches, item_matches. split.
  - intros H [topic keywords] Hin. simpl.
    destruct (any_keyword keywords text) eqn:E; [|reflexivity].
    exfalso. apply (H topic keywords); [now apply list_elem_of_In|].
    now apply any_keyword_occurs.
  - intros H topic keywords Hin Hocc. apply list_elem_of_In in Hin.
    apply any_keyword_occurs in Hocc. specialize (H _ Hin). simpl in H.
    congruence.
Qed.

Lemma extract_topics_cases text title :
  (text = EmptyString /\ title = EmptyString
   /\ extract_topics text title = ["uncategorized"]
   /\ List.filter (item_matches (combined_text text title)) topic_keywords = [])
  \/ (List.filter (item_matches (combined_text text title)) topic_keywords = []
      /\ extract_topics text title = ["uncategorized"])
  \/ (List.filter (item_matches (combined_text text title)) topic_keywords <> []
      /\ extract_topics text title
         = map fst (List.filter (item_matches (combined_text text title))
                      topic_keywords)).
Proof.
  unfold extract_topics. rewrite detect_topics_filter. cbn [app].
  destruct text as [|a text], title as [|b title]; cbn [Py.is_empty andb].
  1: left; repeat split; reflexivity.
  all: right;
    destruct (List.filter _ topic_keywords) as [|item rest] eqn:E;
    [left; split; reflexivity | right; split; [discriminate | reflexivity]].
Qed.

(** C7. [extract_topics] never returns the empty list; each of the eight
    topics is in the result exactly when one of its keywords is a
    substring of the lowercased title, a space and the text; the result
    is ["uncategorized"] exactly when no keyword of any topic occurs there
    or both title and text are empty; and several topics can be returned
    at once, "business" from the text and "technology" from the title for
    instance, whatever the case of the letters. *)
Theorem extract_topics_labels (text title : string) :
  extract_topics text title <> []
  /\ Forall (fun '(topic, keywords) =>
              topic ∈ extract_topics text title
              <-> keyword_occurs keywords (Py.lower (title +:+ " " +:+ text)))
       topic_keywords
  /\ (extract_topics text title = ["uncategorized"]
      <-> no_keyword_matches (Py.lower (title +:+ " " +:+ text))
          \/ (title = EmptyString /\ text = EmptyString))
  /\ extract_topics "Shares fell as the COMPANY warned." "New SOFTWARE released"
     = ["business"; "technology"]
  /\ extract_topics "Shares fell as the COMPANY warned." "" = ["business"]
  /\ extract_topics "" "New SOFTWARE released" = ["technology"].
Proof.
  change (Py.lower (title +:+ " " +:+ text)) with (combined_text text title).
  pose proof (extract_topics_cases text title) as Hcases.
  split; [|split; [|split]].
  - destruct Hcases as [(_ & _ & -> & _) | [(_ & ->) | (Hne & ->)]];
      try discriminate.
    destruct (List.filter _ _); [congruence | discriminate].
  - apply Forall_forall. intros [topic keywords] Hin.
    rewrite <- any_keyword_occurs.
    rewrite <- (detected_topic_iff topic_keywords (combined_text text title)
                  topic keywords topic_keywords_nodup)
      by now apply list_elem_of_In.
    rewrite list_elem_of_In.
    destruct Hcases as [(_ & _ & -> & ->) | [(-> & ->) | (_ & ->)]];
      [| | reflexivity].
    all: simpl map; split; [|intros []].
    all: intros [<- | []]; revert Hin; clear.
    all: intros Hin; apply list_elem_of_In in Hin; simpl in Hin.
    all: repeat (destruct Hin as [Hin | Hin]; [discriminate|]); exact Hin.
  - rewrite no_keyword_matches_filter.
    destruct Hcases as [(-> & -> & -> & E) | [(E & ->) | (Hne & ->)]].
    + tauto.
    + tauto.
    + split.
      * intros H. exfalso.
        assert (In "uncategorized" (map fst topic_keywords)) as Hin.
        { apply in_map_iff.
          assert (In "uncategorized"
                    (map fst (List.filter (item_matches (combined_text text title))
                                topic_keywords))) as Hin
            by (rewrite H; now left).
          apply in_map_iff in Hin as (item & Hi & Hf).
          exists item. split; [exact Hi|]. now apply filter_In in Hf. }
        simpl in Hin. repeat (destruct Hin as [Hin | Hin]; [discriminate|]).
        exact Hin.
      * intros [E | [-> ->]]; [contradiction|].
        exfalso. apply Hne. reflexivity.
  - split; [vm_compute; reflexivity | split; vm_compute; reflexivity].
Qed.

(** ** Stage B: numeric thresholds *)

Lemma ge_iff a b : ge a b = true <-> b <= a.
Proof. apply Qle_bool_iff. Qed.

Lemma le_iff a b : le a b = true <-> a <= b.
Proof. apply Qle_bool_iff. Qed.


(** A bias score equal to the threshold passes, and so does the highest
    score against the lowest threshold. *)
Example bias_boundary_included :
  within_thresholds (Sample.preferences_with "OR" []) Sample.tech_article = true
  /\ cls_bias_score (Sample.classified 5 5 ["technology"])
     = bias_threshold (Sample.preferences_with "OR" [])
  /\ within_thresholds (Sample.preferences_with "OR" []) Sample.second_article = true.
Proof. repeat split. Qed.

(** A reading level 2 away from the preference passes; further away it
    does not. *)
Example reading_level_window_boundary :
  within_thresholds (Sample.preferences_with "OR" [])
    (Sample.article "edge" 0 (Some (Sample.classified 3 5 []))) = true
  /\ within_thresholds (Sample.preferences_with "OR" [])
       (Sample.article "far" 0 (Some (Sample.classified (29 # 10) 5 []))) = false.
Proof. split; reflexivity. Qed.

(** ** Stage A: topics *)

Lemma mem_iff x xs : mem x xs = true <-> x ∈ xs.
Proof.
  unfold mem. rewrite existsb_exists, list_elem_of_In. split.
  - intros (y & Hy & E). apply String.eqb_eq in E. now subst.
  - intros H. exists x. split; [exact H | apply String.eqb_refl].
Qed.

Lemma array_matches_all values field :
  values <> [] ->
  array_matches (Q_all values) field = true
  <-> list_to_set values ⊆@{gset string} list_to_set field.
Proof.
  intros Hne. unfold array_matches.
  destruct values as [|v values]; [congruence|].
  rewrite forallb_forall. split.
  - intros H x. rewrite !elem_of_list_to_set, list_elem_of_In, <- mem_iff.
    apply H.
  - intros H x Hx. apply mem_iff. apply list_elem_of_In in Hx.
    specialize (H x). rewrite !elem_of_list_to_set in H. auto.
Qed.

Lemma array_matches_in values field :
  array_matches (Q_in values) field = true
  <-> list_to_set field ∩ list_to_set values ≠@{gset string} ∅.
Proof.
  unfold array_matches. rewrite existsb_exists. split.
  - intros (x & Hx & Hm). apply mem_iff in Hm. apply list_elem_of_In in Hx.
    intros E. assert (x ∈@{gset string} ∅) as Habs; [|set_solver].
    rewrite <- E, elem_of_intersection, !elem_of_list_to_set. auto.
  - intros H. apply set_choose_L in H as [x Hx].
    rewrite elem_of_intersection, !elem_of_list_to_set in Hx.
    destruct Hx as [Hf Hv].
    exists x. split; [now apply list_elem_of_In | now apply mem_iff].
Qed.

Lemma q_topics_nonempty preferences now :
  topics preferences <> [] ->
  q_topics (build_query preferences now)
  = if String.eqb (topics_filter_type preferences) "AND"
    then Some (Q_all (topics preferences))
    else Some (Q_in (topics preferences)).
Proof.
  intros Hne. cbn [build_query q_topics].
  destruct (topics preferences) as [|t ts]; [congruence|].
  reflexivity.
Qed.



(** ** The query pattern keeps the order *)

Lemma newer_or_equal_transitive : Transitive newer_or_equal.
Proof. intros a b c. unfold newer_or_equal. lia. Qed.

Lemma filter_is_sublist {A} (f : A -> bool) (l : list A) :
  List.filter f l `sublist_of` l.
Proof.
  induction l as [|a l IH]; simpl.
  - constructor.
  - destruct (f a); now constructor.
Qed.

Lemma filter_filter {A} (f g : A -> bool) (l : list A) :
  List.filter g (List.filter f l) = List.filter (fun a => f a && g a) l.
Proof.
  induction l as [|a l IH]; simpl; [reflexivity|].
  destruct (f a); simpl; [destruct (g a)|]; now rewrite IH.
Qed.

Lemma strongly_sorted_sublist {A} (R : relation A) (k l : list A) :
  k `sublist_of` l -> StronglySorted R l -> StronglySorted R k.
Proof.
  induction 1 as [|x k l Hsub IH|x k l Hsub IH]; intros Hs.
  - constructor.
  - apply StronglySorted_inv in Hs as [Hs Hall]. constructor; [auto|].
    apply Forall_forall. intros y Hy. rewrite Forall_forall in Hall.
    apply Hall. eapply elem_of_sublist; eauto.
  - apply StronglySorted_inv in Hs as [Hs _]. auto.
Qed.

Lemma newest_first_sublist k l :
  k `sublist_of` l -> newest_first l -> newest_first k.
Proof.
  intros Hsub Hs. apply StronglySorted_Sorted.
  apply (strongly_sorted_sublist _ k l Hsub).
  apply Sorted_StronglySorted; [apply newer_or_equal_transitive | exact Hs].
Qed.

Lemma cursor_limit_sublist n l : cursor_limit n l `sublist_of` l.
Proof. destruct n; [reflexivity | apply sublist_take]. Qed.

Lemma cursor_limit_all n l :
  n = 0%nat \/ (length l <= n)%nat -> cursor_limit n l = l.
Proof.
  intros [-> | H]; [reflexivity|].
  destruct n; [reflexivity|]. now apply take_ge.
Qed.

Lemma page_sublist preferences now skip limit collection :
  page preferences now skip limit collection `sublist_of` collection.
Proof.
  unfold page. etrans; [apply cursor_limit_sublist|].
  etrans; [apply sublist_drop|]. apply filter_is_sublist.
Qed.

(** C9, as the specification states it, fails when the page is shorter
    than the list of Stage-A survivors: with a limit of one, the second of
    two surviving articles is not in the output. *)
Lemma page_limit_drops_a_surviving_article :
  newest_first Sample.two_articles
  /\ Sample.second_article ∈ Sample.two_articles
  /\ survives (Sample.preferences_with "OR" []) (Sample.day 100)
       Sample.second_article = true
  /\ filter_articles (Sample.preferences_with "OR" []) (Sample.day 100) 0 1
       Sample.two_articles = [Sample.tech_article]
  /\ Sample.second_article
     ∉ filter_articles (Sample.preferences_with "OR" []) (Sample.day 100) 0 1
         Sample.two_articles.
Proof.
  assert (filter_articles (Sample.preferences_with "OR" []) (Sample.day 100) 0 1
            Sample.two_articles = [Sample.tech_article]) as E
    by (vm_compute; reflexivity).
  split; [|split; [|split; [|split]]].
  - repeat constructor. vm_compute. discriminate.
  - unfold Sample.two_articles. set_solver.
  - vm_compute. reflexivity.
  - exact E.
  - rewrite E. intros H. apply list_elem_of_singleton in H. discriminate.
Qed.

Lemma insert_desc_perm a l : insert_desc a l ≡ₚ a :: l.
Proof.
  induction l as [|b l IH]; [reflexivity|].
  cbn [insert_desc]. destruct (published_date b <=? published_date a)%Z;
    [reflexivity|].
  rewrite IH. apply Permutation_swap.
Qed.

Lemma sort_desc_perm l : sort_desc l ≡ₚ l.
Proof.
  induction l as [|a l IH]; [reflexivity|].
  cbn [sort_desc foldr]. fold (sort_desc l).
  rewrite insert_desc_perm. now rewrite IH.
Qed.

Lemma insert_desc_sorted a l : newest_first l -> newest_first (insert_desc a l).
Proof.
  unfold newest_first. induction 1 as [|b l Hs IH Hhd].
  - repeat constructor.
  - cbn [insert_desc].
    destruct (Z.leb_spec (published_date b) (published_date a)) as [Hle|Hlt].
    + constructor; [now constructor|]. constructor. exact Hle.
    + constructor; [exact IH|].
      destruct Hhd as [|c l Hbc]; cbn [insert_desc].
      * constructor. unfold newer_or_equal. lia.
      * destruct (published_date c <=? published_date a)%Z; constructor;
          [unfold newer_or_equal; lia | exact Hbc].
Qed.

Lemma sort_desc_sorted l : newest_first (sort_desc l).
Proof.
  induction l as [|a l IH]; [constructor|].
  cbn [sort_desc foldr]. fold (sort_desc l). now apply insert_desc_sorted.
Qed.

(** The insertion sort of the examples is one of the admitted sorts. *)
Lemma sort_desc_admitted : sorts_newest_first sort_desc.
Proof. intros l. split; [apply sort_desc_perm | apply sort_desc_sorted]. Qed.

(** With it the parametrised query pattern is the one of the examples. *)
Lemma filter_articles_with_sort_desc preferences now skip limit collection :
  filter_articles_with sort_desc preferences now skip limit collection
  = filter_articles preferences now skip limit collection.
Proof. reflexivity. Qed.

Lemma insert_behind_perm a l : insert_behind a l ≡ₚ a :: l.
Proof.
  induction l as [|b l IH]; [reflexivity|].
  cbn [insert_behind]. destruct (published_date b <? published_date a)%Z;
    [reflexivity|].
  rewrite IH. apply Permutation_swap.
Qed.

Lemma insert_behind_sorted a l : newest_first l -> newest_first (insert_behind a l).
Proof.
  unfold newest_first. induction 1 as [|b l Hs IH Hhd].
  - repeat constructor.
  - cbn [insert_behind].
    destruct (Z.ltb_spec (published_date b) (published_date a)) as [Hlt|Hle].
    + constructor; [now constructor|]. constructor. unfold newer_or_equal. lia.
    + constructor; [exact IH|].
      destruct Hhd as [|c l Hbc]; cbn [insert_behind].
      * constructor. exact Hle.
      * destruct (published_date c <? published_date a)%Z; constructor;
          [exact Hle | exact Hbc].
Qed.

(** So is the sort that reverses the articles of one date. *)
Lemma sort_reversing_ties_admitted : sorts_newest_first sort_reversing_ties.
Proof.
  intros l. split.
  - induction l as [|a l IH]; [reflexivity|].
    cbn [sort_reversing_ties foldr]. fold (sort_reversing_ties l).
    rewrite insert_behind_perm. now rewrite IH.
  - induction l as [|a l IH]; [constructor|].
    cbn [sort_reversing_ties foldr]. fold (sort_reversing_ties l).
    now apply insert_behind_sorted.
Qed.

Lemma descending_transitive : Transitive descending.
Proof. intros x y z. unfold descending. lia. Qed.

Lemma descending_antisymmetric : AntiSymm eq descending.
Proof. intros x y. unfold descending. lia. Qed.

Lemma newer_or_equal_dates (l : list Article) :
  newest_first l -> Sorted descending (published_date <$> l).
Proof.
  unfold newest_first. induction 1 as [|a l Hs IH Hhd]; [constructor|].
  cbn [fmap list_fmap]. constructor; [exact IH|].
  destruct Hhd as [|b l Hab]; constructor. exact Hab.
Qed.

Lemma fmap_injective_on {A B} (f : A -> B) (l1 l2 : list A) :
  f <$> l1 = f <$> l2 ->
  (forall x y, x ∈ l1 -> y ∈ l2 -> f x = f y -> x = y) ->
  l1 = l2.
Proof.
  revert l2. induction l1 as [|a l1 IH]; intros [|b l2] E Hinj;
    try discriminate; [reflexivity|].
  cbn [fmap list_fmap] in E. injection E as Eab E.
  f_equal.
  - apply Hinj; [left | left | exact Eab].
  - apply IH; [exact E|]. intros x y Hx Hy. apply Hinj; now right.
Qed.

Lemma distinct_dates_injective (l : list Article) x y :
  distinct_dates l -> x ∈ l -> y ∈ l -> published_date x = published_date y ->
  x = y.
Proof.
  unfold distinct_dates. induction l as [|a l IH]; intros Hnd Hx Hy E.
  - inversion Hx.
  - cbn [fmap list_fmap] in Hnd. apply NoDup_cons in Hnd as [Hnot Hnd].
    apply elem_of_cons in Hx as [-> | Hx]; apply elem_of_cons in Hy as [-> | Hy].
    + reflexivity.
    + exfalso. apply Hnot. rewrite E. now apply list_elem_of_fmap_2.
    + exfalso. apply Hnot. rewrite <- E. now apply list_elem_of_fmap_2.
    + now apply IH.
Qed.

(** With distinct dates there is one way only to be newest first. *)
Lemma newest_first_unique (l1 l2 : list Article) :
  l1 ≡ₚ l2 -> distinct_dates l2 -> newest_first l1 -> newest_first l2 -> l1 = l2.
Proof.
  intros Hp Hnd Hs1 Hs2. apply (fmap_injective_on published_date).
  - apply (@Sorted_unique _ descending descending_transitive
             descending_antisymmetric).
    + now apply newer_or_equal_dates.
    + now apply newer_or_equal_dates.
    + now rewrite Hp.
  - intros x y Hx Hy. rewrite Hp in Hx. now apply (distinct_dates_injective l2).
Qed.

Lemma distinct_dates_sublist k l :
  k `sublist_of` l -> distinct_dates l -> distinct_dates k.
Proof.
  unfold distinct_dates. intros Hsub Hnd.
  refine (sublist_NoDup _ _ Hnd _). now apply fmap_sublist.
Qed.

(** On a collection newest first with distinct dates, every admitted sort
    returns the matching articles as they are. *)
Lemma sort_of_filtered sort (f : Article -> bool) collection :
  sorts_newest_first sort ->
  newest_first collection -> distinct_dates collection ->
  sort (List.filter f collection) = List.filter f collection.
Proof.
  intros Hsort Hs Hnd. destruct (Hsort (List.filter f collection)) as [Hp Hsf].
  apply newest_first_unique; try assumption.
  - eapply distinct_dates_sublist; [apply filter_is_sublist | exact Hnd].
  - eapply newest_first_sublist; [apply filter_is_sublist | exact Hs].
Qed.

Lemma filter_permutation {A} (f : A -> bool) (l1 l2 : list A) :
  l1 ≡ₚ l2 -> List.filter f l1 ≡ₚ List.filter f l2.
Proof.
  induction 1 as [|x l1 l2 Hp IH|x y l|l1 l2 l3 H1 IH1 H2 IH2]; simpl.
  - reflexivity.
  - destruct (f x); [now constructor | exact IH].
  - destruct (f x), (f y); try reflexivity. apply Permutation_swap.
  - now rewrite IH1.
Qed.

Lemma find_articles_with_facts sort q skip limit collection :
  sorts_newest_first sort ->
  newest_first (find_articles_with sort q skip limit collection)
  /\ find_articles_with sort q skip limit collection ⊆+ collection
  /\ (forall article,
        article ∈ find_articles_with sort q skip limit collection ->
        matches q article = true).
Proof.
  intros Hsort. unfold find_articles_with.
  destruct (Hsort (List.filter (matches q) collection)) as [Hp Hs].
  split; [|split].
  - eapply newest_first_sublist; [apply cursor_limit_sublist|].
    eapply newest_first_sublist; [apply sublist_drop | exact Hs].
  - etrans; [apply sublist_submseteq, cursor_limit_sublist|].
    etrans; [apply sublist_submseteq, sublist_drop|].
    rewrite Hp. apply sublist_submseteq, filter_is_sublist.
  - intros article H.
    eapply elem_of_sublist in H; [|apply cursor_limit_sublist].
    eapply elem_of_sublist in H; [|apply sublist_drop].
    rewrite Hp in H. apply list_elem_of_In, filter_In in H. tauto.
Qed.

(** Articles of one date may come out in another order than they had:
    then the output is no subsequence of the input. *)
Example equal_dates_may_swap :
  newest_first same_day_articles
  /\ filter_articles_with sort_reversing_ties (Sample.preferences_with "OR" [])
       (Sample.day 100) 0 0 same_day_articles
     = rev same_day_articles
  /\ ~ rev same_day_articles `sublist_of` same_day_articles.
Proof.
  split; [|split].
  - repeat constructor. unfold newer_or_equal. simpl. lia.
  - vm_compute. reflexivity.
  - intros H. apply sublist_length in H as Hlen.
    inversion H as [| ? ? ? H1 | ? ? ? H1]; subst.
    inversion H1 as [| ? ? ? H2 | ? ? ? H2]; subst.
    + inversion H2.
    + apply sublist_length in H2. simpl in H2. lia.
Qed.

(** C9, amended. Whatever sort the database applies among the admitted
    ones, on a collection that is newest first, for every preference
    record and every page: the output is newest first, holds no article
    more often than the collection and only articles surviving both
    stages, and when nothing is skipped and the limit is zero (no limit)
    or at least the number of Stage-A survivors it holds exactly the
    articles surviving both stages. When moreover no two articles have the
    same date, the output is the page of the Stage-A survivors filtered
    by Stage B and a subsequence of the input, in the same relative order;
    articles of one date may come out in another order. *)
Theorem filter_articles_keeps_order (sort : list Article -> list Article)
    (preferences : Preferences) (now : Z) (skip limit : nat)
    (collection : list Article) :
  sorts_newest_first sort ->
  newest_first collection ->
  newest_first (filter_articles_with sort preferences now skip limit collection)
  /\ filter_articles_with sort preferences now skip limit collection ⊆+ collection
  /\ (forall article,
        article ∈ filter_articles_with sort preferences now skip limit collection ->
        survives preferences now article = true)
  /\ (skip = 0%nat ->
      limit = 0%nat
      \/ (length (List.filter (stage_a preferences now) collection) <= limit)%nat ->
      filter_articles_with sort preferences now skip limit collection
      ≡ₚ List.filter (survives preferences now) collection)
  /\ (distinct_dates collection ->
      filter_articles_with sort preferences now skip limit collection
      = List.filter (within_thresholds preferences)
          (page preferences now skip limit collection)
      /\ filter_articles_with sort preferences now skip limit collection
         `sublist_of` collection
      /\ (skip = 0%nat ->
          limit = 0%nat
          \/ (length (List.filter (stage_a preferences now) collection) <= limit)%nat ->
          filter_articles_with sort preferences now skip limit collection
          = List.filter (survives preferences now) collection)).
Proof.
  intros Hsort Hs.
  destruct (find_articles_with_facts sort (build_query preferences now) skip limit
              collection Hsort) as (Hsorted & Hsub & Hmatch).
  unfold filter_articles_with. split; [|split; [|split; [|split]]].
  - eapply newest_first_sublist; [apply filter_is_sublist | exact Hsorted].
  - etrans; [apply sublist_submseteq, filter_is_sublist | exact Hsub].
  - intros article H. apply list_elem_of_In, filter_In in H as [H Hb].
    apply list_elem_of_In in H. unfold survives, stage_a.
    now rewrite (Hmatch article H), Hb.
  - intros -> Hlimit. unfold find_articles_with. rewrite drop_0.
    destruct (Hsort (List.filter (matches (build_query preferences now)) collection))
      as [Hp _].
    rewrite cursor_limit_all
      by (rewrite (Permutation_length Hp); exact Hlimit).
    rewrite (filter_permutation _ _ _ Hp). now rewrite filter_filter.
  - intros Hnd.
    assert (find_articles_with sort (build_query preferences now) skip limit collection
            = page preferences now skip limit collection) as E.
    { unfold find_articles_with, page, stage_a.
      now rewrite (sort_of_filtered sort _ collection Hsort Hs Hnd). }
    rewrite E. split; [reflexivity|]. split.
    + etrans; [apply filter_is_sublist | apply page_sublist].
    + intros -> Hlimit. unfold page. rewrite drop_0.
      rewrite cursor_limit_all by exact Hlimit. apply filter_filter.
Qed.

Lemma filter_articles_keeps_order_witness :
  filter_articles_with sort_desc (Sample.preferences_with "OR" []) (Sample.day 100)
    0 0 Sample.two_articles = Sample.two_articles
  /\ filter_articles_with sort_reversing_ties (Sample.preferences_with "OR" [])
       (Sample.day 100) 1 5 Sample.two_articles `sublist_of` Sample.two_articles.
Proof.
  assert (newest_first Sample.two_articles) as Hs
    by (repeat constructor; vm_compute; discriminate).
  assert (distinct_dates Sample.two_articles) as Hnd.
  { unfold distinct_dates. apply NoDup_ListNoDup. simpl.
    repeat (apply List.NoDup_cons; [simpl; intuition discriminate|]).
    apply List.NoDup_nil. }
  split.
  - rewrite (proj2 (proj2 (proj2 (proj2 (proj2 (proj2 (filter_articles_keeps_order
               sort_desc (Sample.preferences_with "OR" []) (Sample.day 100) 0 0
               Sample.two_articles sort_desc_admitted Hs)))) Hnd))
               eq_refl (or_introl eq_refl)).
    reflexivity.
  - apply (filter_articles_keeps_order sort_reversing_ties
             (Sample.preferences_with "OR" []) (Sample.day 100) 1 5
             Sample.two_articles sort_reversing_ties_admitted Hs). exact Hnd.
Defined.

(** ** Lowercasing *)

Lemma lower_char_idempotent c : Py.lower_char (Py.lower_char c) = Py.lower_char c.
Proof. destruct c as [[] [] [] [] [] [] [] []]; reflexivity. Qed.

Lemma lower_idempotent s : Py.lower (Py.lower s) = Py.lower s.
Proof.
  induction s as [|c s IH]; [reflexivity|].
  simpl. now rewrite lower_char_idempotent, IH.
Qed.

Lemma lower_append a b : Py.lower (a +:+ b) = Py.lower a +:+ Py.lower b.
Proof.
  induction a as [|c a IH]; [reflexivity|].
  rewrite append_cons. simpl. now rewrite IH.
Qed.

Lemma is_empty_lower s : Py.is_empty (Py.lower s) = Py.is_empty s.
Proof. now destruct s. Qed.

Lemma density_of_lower text :
  calculate_information_density (Py.lower text) = calculate_information_density text.
Proof.
  unfold calculate_information_density.
  now rewrite is_empty_lower, lower_idempotent.
Qed.

Lemma bias_of_lower text : estimate_bias (Py.lower text) = estimate_bias text.
Proof.
  unfold estimate_bias. now rewrite is_empty_lower, lower_idempotent.
Qed.

Lemma propaganda_of_lower text :
  estimate_propaganda (Py.lower text) = estimate_propaganda text.
Proof.
  unfold estimate_propaganda, estimate_propaganda_with.
  now rewrite is_empty_lower, lower_idempotent.
Qed.

Lemma topics_of_lower text title :
  extract_topics (Py.lower text) (Py.lower title) = extract_topics text title.
Proof.
  unfold extract_topics, combined_text.
  rewrite !is_empty_lower, !lower_append, !lower_idempotent. reflexivity.
Qed.

(** X1. The information density, the bias score, the propaganda score and
    the topics do not see the case of letters: two texts (and titles) with
    the same lowercase form get the same results. *)
Theorem scores_ignore_case (text text' title title' : string) :
  Py.lower text = Py.lower text' ->
  Py.lower title = Py.lower title' ->
  calculate_information_density text = calculate_information_density text'
  /\ estimate_bias text = estimate_bias text'
  /\ estimate_propaganda text = estimate_propaganda text'
  /\ extract_topics text title = extract_topics text' title'.
Proof.
  intros Ht Hl.
  rewrite <- (density_of_lower text), <- (density_of_lower text').
  rewrite <- (bias_of_lower text), <- (bias_of_lower text').
  rewrite <- (propaganda_of_lower text), <- (propaganda_of_lower text').
  rewrite <- (topics_of_lower text title), <- (topics_of_lower text' title').
  now rewrite Ht, Hl.
Qed.

Lemma scores_ignore_case_witness :
  estimate_bias "TRUMP and the Border Wall" = estimate_bias "Trump and the border wall"
  /\ extract_topics "SENATE votes" "Election" = extract_topics "senate VOTES" "ELECTION".
Proof.
  split.
  - apply (scores_ignore_case "TRUMP and the Border Wall" "Trump and the border wall"
             "" ""); reflexivity.
  - apply (scores_ignore_case "SENATE votes" "senate VOTES" "Election" "ELECTION");
      reflexivity.
Defined.

(** ** Saturation of the clamp *)

Lemma py_clamp_cases x :
  (x <= 1 /\ Py.min 10 (Py.max 1 x) == 1)
  \/ (1 <= x /\ x <= 10 /\ Py.min 10 (Py.max 1 x) == x)
  \/ (10 <= x /\ Py.min 10 (Py.max 1 x) == 10).
Proof.
  unfold Py.min, Py.max. destruct (Qle_bool x 1) eqn:E1.
  - left. apply Qle_bool_iff in E1. split; [exact E1 | reflexivity].
  - assert (~ x <= 1) as H1 by (rewrite <- Qle_bool_iff; congruence).
    destruct (Qle_bool 10 x) eqn:E2.
    + right. right. apply Qle_bool_iff in E2. split; [exact E2 | reflexivity].
    + assert (~ 10 <= x) as H2 by (rewrite <- Qle_bool_iff; congruence).
      right. left. split; [lra | split; [lra | reflexivity]].
Qed.

Lemma int_le a b : (a <= b)%Z -> int a <= int b.
Proof. intros H. unfold int. now rewrite <- Zle_Qle. Qed.

Lemma int_lt a b : (a < b)%Z -> int a < int b.
Proof. intros H. unfold int. now rewrite <- Zlt_Qlt. Qed.

Lemma int_mul a b : int (a * b) == int a * int b.
Proof. unfold int. now rewrite inject_Z_mult. Qed.

(** [q] is the quotient of two integers, the divisor positive. *)
Lemma quotient_spec (a b : Z) :
  (0 < b)%Z -> (int a / int b) * int b == int a /\ 0 < int b.
Proof.
  intros Hb. assert (0 < int b) as Hq by (apply (int_lt 0 b Hb)).
  split; [|exact Hq]. field. lra.
Qed.

Lemma count_present_bounds terms text :
  (0 <= count_present terms text <= Py.len terms)%Z.
Proof.
  unfold count_present, Py.len.
  induction terms as [|t terms IH]; simpl length; simpl map; simpl Py.sum_bools.
  - lia.
  - destruct (Py.contains t text); simpl Z.b2z; lia.
Qed.

(** X2. A term or an indicator counts at most once however often it
    occurs: the left and the right count of a text lie between 0 and 6,
    and the count of propaganda indicators between 0 and 16 (the two
    upper-case indicators never count). *)
Theorem counts_bounded (text : string) :
  (0 <= left_count text <= 6)%Z
  /\ (0 <= right_count text <= 6)%Z
  /\ (0 <= indicator_count text <= 16)%Z.
Proof.
  split; [|split].
  - apply (count_present_bounds left_bias_terms).
  - apply (count_present_bounds right_bias_terms).
  - unfold indicator_count. rewrite count_present_lowercase_indicators.
    apply (count_present_bounds lowercase_indicators).
Qed.

(** ** Information density *)

Lemma information_density_value text w ws :
  density_words text = w :: ws ->
  calculate_information_density text
  = Py.min 10 (Py.max 1 (int (Py.distinct (w :: ws)) / int (Py.len (w :: ws)) * 20)).
Proof.
  intros Hw. unfold calculate_information_density.
  destruct text as [|c text]; [discriminate|].
  cbn [Py.is_empty]. fold (density_words (String c text)). rewrite Hw.
  rewrite truediv_nonzero; [reflexivity|].
  apply int_nonzero. unfold Py.len. simpl length. lia.
Qed.

Lemma remove_dups_length (words : list string) :
  (length (remove_dups words) <= length words)%nat.
Proof.
  induction words as [|w ws IH]; simpl; [lia|].
  destruct (decide_rel elem_of w ws); simpl; lia.
Qed.

Lemma distinct_bounds (words : list string) :
  words <> [] -> (1 <= Py.distinct words <= Py.len words)%Z.
Proof.
  intros Hne. unfold Py.distinct, Py.len. split.
  - destruct words as [|w ws]; [congruence|].
    assert (w ∈ remove_dups (w :: ws)) as Hin
      by (apply elem_of_remove_dups; left).
    destruct (remove_dups (w :: ws)); [inversion Hin | simpl; lia].
  - apply Nat2Z.inj_le. apply remove_dups_length.
Qed.

(** X3. [calculate_information_density] is 5 on a text without a word
    token; otherwise it is [clamp(distinct / total * 20, 1, 10)] over the
    lowercased tokens, it reaches 10 as soon as at least half of the
    tokens are distinct, and it stays below 10 otherwise. *)
Theorem information_density_reference (text : string) :
  (density_words text = [] -> calculate_information_density text = 5)
  /\ (density_words text <> [] ->
      calculate_information_density text
      == Spec.clamp (int (Py.distinct (density_words text))
                     / int (Py.len (density_words text)) * 20) 1 10)
  /\ (density_words text <> [] ->
      (calculate_information_density text == 10
       <-> (Py.len (density_words text) <= 2 * Py.distinct (density_words text))%Z)).
Proof.
  split; [|split].
  - intros Hw. unfold calculate_information_density.
    destruct (Py.is_empty text); [reflexivity|].
    fold (density_words text). now rewrite Hw.
  - intros Hne. destruct (density_words text) as [|w ws] eqn:Hw; [congruence|].
    rewrite (information_density_value text w ws Hw). apply py_clamp_spec.
  - intros Hne. destruct (density_words text) as [|w ws] eqn:Hw; [congruence|].
    rewrite (information_density_value text w ws Hw).
    destruct (distinct_bounds (w :: ws) Hne) as [Hd1 Hd2].
    set (d := Py.distinct (w :: ws)) in *. set (n := Py.len (w :: ws)) in *.
    assert (0 < n)%Z as Hn by lia.
    destruct (quotient_spec d n Hn) as [Hq Hpos].
    set (q := int d / int n) in *.
    assert (int (2 * d) == 2 * int d) as H2d by apply int_mul.
    destruct (py_clamp_cases (q * 20)) as [[Hx ->] | [(Hx1 & Hx2 & ->) | [Hx ->]]].
    + split; [intros H; lra|]. intros Hle. apply int_le in Hle.
      exfalso. nra.
    + split.
      * intros H. apply Z.nlt_ge. intros Hlt. apply int_lt in Hlt. nra.
      * intros Hle. apply int_le in Hle. nra.
    + split; [|reflexivity]. intros _.
      apply Z.nlt_ge. intros Hlt. apply int_lt in Hlt. nra.
Qed.

Lemma information_density_reference_witness :
  calculate_information_density "?!" = 5
  /\ calculate_information_density "The cat and the dog" == 10
  /\ ~ calculate_information_density "go go go Go GO" == 10.
Proof.
  split; [|split].
  - apply (information_density_reference "?!"). reflexivity.
  - apply (information_density_reference "The cat and the dog");
      vm_compute; discriminate.
  - intros H.
    apply (information_density_reference "go go go Go GO") in H;
      [vm_compute in H; apply H; reflexivity | discriminate].
Defined.

(** ** Reading level, bias and propaganda at the ends of the scale *)

Lemma calculate_reading_level_value (st ft : tokenizer) text sentences :
  text <> EmptyString ->
  sentences_of st ft text = Some sentences ->
  sentences <> [] ->
  calculate_reading_level st ft text
  = Py.min 10 (Py.max 1 (int (total_words sentences) / int (Py.len sentences) / 3)).
Proof.
  intros Hne Hs Hss. unfold calculate_reading_level.
  destruct text; [congruence|]. cbn [Py.is_empty]. rewrite Hs. simpl mbind.
  destruct sentences as [|s rest]; [congruence|]. unfold reading_level_of.
  rewrite truediv_nonzero; [reflexivity|].
  apply int_nonzero. unfold Py.len. simpl length. lia.
Qed.

(** X4. On a text that is not empty and is cut into at least one sentence,
    the reading level is 1 when the sentences have at most 3 words on
    average, 10 when they have 30 or more, and a third of the average in
    between. *)
Theorem reading_level_saturation (sent_tokenize simple_tokenize : tokenizer)
    (text : string) (sentences : list string) :
  text <> EmptyString ->
  sentences_of sent_tokenize simple_tokenize text = Some sentences ->
  sentences <> [] ->
  ((total_words sentences <= 3 * Py.len sentences)%Z ->
   calculate_reading_level sent_tokenize simple_tokenize text == 1)
  /\ ((30 * Py.len sentences <= total_words sentences)%Z ->
      calculate_reading_level sent_tokenize simple_tokenize text == 10)
  /\ ((3 * Py.len sentences <= total_words sentences <= 30 * Py.len sentences)%Z ->
      calculate_reading_level sent_tokenize simple_tokenize text
      == int (total_words sentences) / int (Py.len sentences) / 3).
Proof.
  intros Hne Hs Hss.
  rewrite (calculate_reading_level_value _ _ text sentences Hne Hs Hss).
  assert (0 < Py.len sentences)%Z as Hn
    by (destruct sentences; [congruence | unfold Py.len; simpl length; lia]).
  destruct (quotient_spec (total_words sentences) (Py.len sentences) Hn) as [Hq Hpos].
  set (t := total_words sentences) in *. set (n := Py.len sentences) in *.
  set (q := int t / int n) in *.
  assert (int (3 * n) == 3 * int n) as H3 by apply int_mul.
  assert (int (30 * n) == 30 * int n) as H30 by apply int_mul.
  assert (q / 3 == q * (1 # 3)) as Hthird by reflexivity.
  destruct (py_clamp_cases (q / 3)) as [[Hx E] | [(Hx1 & Hx2 & E) | [Hx E]]];
    rewrite E; rewrite Hthird in *; (split; [|split]).
  - reflexivity.
  - intros H. apply int_le in H. exfalso. nra.
  - intros [H _]. apply int_le in H. nra.
  - intros H. apply int_le in H. nra.
  - intros H. apply int_le in H. nra.
  - reflexivity.
  - intros H. apply int_le in H. exfalso. nra.
  - reflexivity.
  - intros [_ H]. apply int_le in H. nra.
Qed.

Lemma reading_level_saturation_witness :
  calculate_reading_level Sample.unavailable (Sample.answering ["Stop."; "Go now!"])
    "Stop. Go now!" == 1
  /\ calculate_reading_level (Sample.answering Sample.cat_sentences)
       Sample.unavailable Sample.cat_text == int 9 / int 2 / 3.
Proof.
  split.
  - apply (reading_level_saturation Sample.unavailable
             (Sample.answering ["Stop."; "Go now!"]) "Stop. Go now!"
             ["Stop."; "Go now!"]);
      [discriminate | reflexivity | discriminate | vm_compute; discriminate].
  - apply (reading_level_saturation (Sample.answering Sample.cat_sentences)
             Sample.unavailable Sample.cat_text Sample.cat_sentences);
      [discriminate | reflexivity | discriminate
      | split; vm_compute; discriminate].
Defined.

Lemma counts_bounded_aux text :
  (0 <= left_count text)%Z /\ (0 <= right_count text)%Z.
Proof.
  split.
  - apply (count_present_bounds left_bias_terms).
  - apply (count_present_bounds right_bias_terms).
Qed.

Lemma bias_score_swap l r : Spec.bias_score l r = Spec.bias_score r l.
Proof.
  unfold Spec.bias_score. rewrite (Z.eqb_sym l r).
  replace (Z.abs (l - r)) with (Z.abs (r - l)) by lia.
  now rewrite (Z.add_comm l r).
Qed.

Lemma bias_score_cases l r :
  (0 <= l)%Z -> (0 <= r)%Z -> l <> r ->
  Spec.bias_score l r < 10
  /\ ((l = 0 \/ r = 0)%Z -> Spec.bias_score l r == 1).
Proof.
  intros Hl Hr Hlr. unfold Spec.bias_score.
  destruct (Z.eqb_spec l r) as [E|_]; [contradiction|].
  rewrite <- py_clamp_spec.
  assert (0 < l + r)%Z as Hn by lia.
  destruct (quotient_spec (Z.abs (l - r)) (l + r) Hn) as [Hq Hpos].
  assert (0 < int (Z.abs (l - r))) as Hpos' by (apply (int_lt 0); lia).
  set (q := int (Z.abs (l - r)) / int (l + r)) in *.
  assert (0 < q) as Hq0.
  { destruct (Qlt_le_dec 0 q) as [|Hle]; [assumption|]. exfalso. nra. }
  destruct (py_clamp_cases (10 - q * 9)) as [[Hx E] | [(Hx1 & Hx2 & E) | [Hx E]]];
    rewrite E; split.
  - lra.
  - reflexivity.
  - lra.
  - intros Hz. assert (Z.abs (l - r) = l + r)%Z as Ea by lia.
    rewrite Ea in Hq. assert (q == 1) as -> by nra. reflexivity.
  - lra.
  - lra.
Qed.

(** X5. On a text that is not empty, the bias score is 10 exactly when the
    left and the right count are equal; it is 1 as soon as terms of one
    list only occur, whatever their number; and it depends on the size of
    the imbalance, not on its side. *)
Theorem bias_score_neutral_iff (text : string) :
  text <> EmptyString ->
  (estimate_bias text == 10 <-> left_count text = right_count text)
  /\ (left_count text <> right_count text ->
      (left_count text = 0 \/ right_count text = 0)%Z ->
      estimate_bias text == 1)
  /\ (forall text', text' <> EmptyString ->
        left_count text' = right_count text ->
        right_count text' = left_count text ->
        estimate_bias text' == estimate_bias text).
Proof.
  intros Hne. pose proof (estimate_bias_nonempty text Hne) as H.
  destruct (counts_bounded_aux text) as (Hl & Hr).
  split; [|split].
  - rewrite H. split.
    + intros E. destruct (Z.eq_dec (left_count text) (right_count text)) as [|Hlr];
        [assumption|].
      destruct (bias_score_cases _ _ Hl Hr Hlr) as [Hlt _]. lra.
    + intros ->. unfold Spec.bias_score. now rewrite Z.eqb_refl.
  - intros Hlr Hz. rewrite H. now apply bias_score_cases.
  - intros text' Hne' El Er.
    rewrite H, (estimate_bias_nonempty text' Hne'), El, Er.
    now rewrite bias_score_swap.
Qed.

Lemma bias_score_neutral_iff_witness :
  left_count "Liberal and conservative voters"
  = right_count "Liberal and conservative voters"
  /\ estimate_bias "Progressive, liberal, democrat" == 1
  /\ estimate_bias "trump the republican met a liberal"
     == estimate_bias "a liberal democrat met trump".
Proof.
  split; [|split].
  - apply (bias_score_neutral_iff "Liberal and conservative voters");
      [discriminate | reflexivity].
  - apply (proj1 (proj2 (bias_score_neutral_iff "Progressive, liberal, democrat"
                           ltac:(discriminate))));
      [vm_compute; discriminate | right; reflexivity].
  - apply (proj2 (proj2 (bias_score_neutral_iff "a liberal democrat met trump"
                           ltac:(discriminate))));
      [discriminate | reflexivity | reflexivity].
Defined.

Lemma propaganda_score_cases (ic wc : Z) :
  (0 <= ic)%Z -> (0 < wc)%Z ->
  (Spec.propaganda_score ic wc == 10 <-> ic = 0%Z)
  /\ ((1 <= ic)%Z -> (wc <= 11)%Z -> Spec.propaganda_score ic wc == 1)
  /\ ((ic <= 16)%Z -> (1600 <= wc)%Z -> 9 <= Spec.propaganda_score ic wc).
Proof.
  intros Hic Hwc. unfold Spec.propaganda_score.
  destruct (Z.eqb_spec wc 0) as [E|_]; [lia|].
  rewrite <- py_clamp_spec.
  assert (0 < int wc) as Hpos by (apply (int_lt 0 wc Hwc)).
  assert (0 <= int ic) as Hipos by (apply (int_le 0 ic Hic)).
  assert (int ic / (int wc / 100) * int wc == 100 * int ic) as Hq
    by (field; lra).
  set (q := int ic / (int wc / 100)) in *.
  assert (0 <= q) as Hq0.
  { destruct (Qlt_le_dec q 0) as [Hlt|]; [|assumption]. exfalso. nra. }
  split; [|split].
  - split.
    + intros H10. destruct (Z.eq_dec ic 0%Z) as [|Hne]; [assumption|]. exfalso.
      assert (0 < int ic) as Hi by (apply (int_lt 0 ic); lia).
      assert (0 < q) as Hq1.
      { destruct (Qlt_le_dec 0 q) as [|Hle]; [assumption|]. exfalso. nra. }
      destruct (py_clamp_cases (10 - q)) as [[Hx E] | [(Hx1 & Hx2 & E) | [Hx E]]];
        rewrite E in H10; lra.
    + intros ->. assert (q == 0) as E.
      { unfold q. change (int 0) with 0. field. lra. }
      destruct (py_clamp_cases (10 - q)) as [[Hx E'] | [(Hx1 & Hx2 & E') | [Hx E']]];
        rewrite E'; lra.
  - intros H1 H11. apply (int_le 1 ic) in H1. apply (int_le wc 11) in H11.
    change (int 1) with 1 in H1. change (int 11) with 11 in H11.
    destruct (py_clamp_cases (10 - q)) as [[Hx E] | [(Hx1 & Hx2 & E) | [Hx E]]];
      rewrite E; [reflexivity | exfalso; nra | exfalso; nra].
  - intros H16 H1600. apply (int_le ic 16) in H16. apply (int_le 1600 wc) in H1600.
    change (int 16) with 16 in H16. change (int 1600) with 1600 in H1600.
    assert (q <= 1) as Hq1.
    { destruct (Qlt_le_dec 1 q) as [Hlt|]; [|assumption]. exfalso. nra. }
    destruct (py_clamp_cases (10 - q)) as [[Hx E] | [(Hx1 & Hx2 & E) | [Hx E]]];
      rewrite E; lra.
Qed.

Lemma word_count_nonneg text : (0 <= word_count text)%Z.
Proof. unfold word_count, Py.len. lia. Qed.

(** X6. On a text whose lowercased form has at least one word token, the
    propaganda score is 10 exactly when no indicator occurs; one indicator
    with at most 11 word tokens in the lowercased text already gives the
    minimum 1; and with 1600 or more of them the score is never below
    9. *)
Theorem propaganda_score_extremes (text : string) :
  (0 < word_count (Py.lower text))%Z ->
  (estimate_propaganda text == 10 <-> indicator_count text = 0%Z)
  /\ ((1 <= indicator_count text)%Z -> (word_count (Py.lower text) <= 11)%Z ->
      estimate_propaganda text == 1)
  /\ ((1600 <= word_count (Py.lower text))%Z -> 9 <= estimate_propaganda text).
Proof.
  intros Hwc.
  pose proof (estimate_propaganda_with_reference propaganda_indicators text) as H.
  fold (estimate_propaganda text) in H. fold (indicator_count text) in H.
  assert (0 <= indicator_count text <= 16)%Z as [Hi Hi16].
  { unfold indicator_count. rewrite count_present_lowercase_indicators.
    apply (count_present_bounds lowercase_indicators). }
  destruct (propaganda_score_cases _ _ Hi Hwc) as (H10 & H1 & H9).
  rewrite H. split; [exact H10|]. split; [exact H1|]. now apply H9.
Qed.

Lemma propaganda_score_extremes_witness :
  estimate_propaganda "We MUST act" == 1
  /\ indicator_count "Rain is expected on Tuesday" = 0%Z.
Proof.
  split.
  - apply (propaganda_score_extremes "We MUST act"); vm_compute; congruence.
  - apply (propaganda_score_extremes "Rain is expected on Tuesday");
      reflexivity.
Defined.

(** ** Shape of the topic list *)

Lemma map_filter_sublist {A B} (f : A -> B) (p : A -> bool) (l : list A) :
  map f (List.filter p l) `sublist_of` map f l.
Proof.
  induction l as [|a l IH]; simpl; [constructor|].
  destruct (p a); simpl; now constructor.
Qed.

Lemma topic_names :
  map fst topic_keywords
  = ["politics"; "business"; "technology"; "science"; "health"; "sports";
     "entertainment"; "world"].
Proof. reflexivity. Qed.

Lemma detected_sublist text title :
  extract_topics text title = ["uncategorized"]
  \/ (extract_topics text title <> []
      /\ extract_topics text title `sublist_of` map fst topic_keywords).
Proof.
  destruct (extract_topics_cases text title)
    as [(_ & _ & E & _) | [(_ & E) | (Hne & E)]]; [now left | now left |].
  right. rewrite E. split; [|apply map_filter_sublist].
  destruct (List.filter _ topic_keywords); [congruence | discriminate].
Qed.

(** X7. The result of [extract_topics] is either ["uncategorized"] alone
    or a selection of the eight topic names in the order of the table:
    between one and eight labels, none of them twice, and
    "uncategorized" never beside a topic. *)
Theorem extract_topics_shape (text title : string) :
  (extract_topics text title = ["uncategorized"]
   \/ (extract_topics text title <> []
       /\ extract_topics text title
          `sublist_of` ["politics"; "business"; "technology"; "science";
                        "health"; "sports"; "entertainment"; "world"]))
  /\ NoDup (extract_topics text title)
  /\ (1 <= length (extract_topics text title) <= 8)%nat
  /\ ("uncategorized" ∈ extract_topics text title ->
      extract_topics text title = ["uncategorized"]).
Proof.
  pose proof (detected_sublist text title) as H. rewrite topic_names in H.
  split; [exact H|].
  destruct H as [-> | [Hne Hsub]].
  - split; [apply NoDup_singleton|]. split; [simpl; lia | reflexivity].
  - split; [|split].
    + refine (sublist_NoDup _ _ _ Hsub).
      rewrite <- topic_names. apply NoDup_ListNoDup, topic_keywords_nodup.
    + apply sublist_length in Hsub. simpl in Hsub.
      destruct (extract_topics text title); [congruence | simpl in *; lia].
    + intros Hin. exfalso. eapply elem_of_sublist in Hin; [|exact Hsub].
      apply list_elem_of_In in Hin. simpl in Hin.
      repeat (destruct Hin as [Hin | Hin]; [discriminate|]). exact Hin.
Qed.

Lemma extract_topics_shape_witness :
  extract_topics "Nothing to see" "Hello" = ["uncategorized"].
Proof.
  apply (extract_topics_shape "Nothing to see" "Hello").
  vm_compute. apply list_elem_of_In. left. reflexivity.
Defined.

(** ** Title and text are searched alike *)

Lemma prefix_append_sep (sep : ascii) (k a b : string) :
  free_of sep k = true ->
  String.prefix k (a +:+ String sep b) = String.prefix k a.
Proof.
  revert a. induction k as [|c k IH]; intros a Hk.
  - now destruct a.
  - simpl in Hk. apply andb_true_iff in Hk as [Hc Hk].
    apply negb_true_iff, Ascii.eqb_neq in Hc.
    destruct a as [|d a].
    + simpl. destruct (ascii_dec c sep) as [E|_]; [congruence | reflexivity].
    + rewrite append_cons. simpl. destruct (ascii_dec c d); [now apply IH | reflexivity].
Qed.

Lemma contains_append_sep (sep : ascii) (k a b : string) :
  free_of sep k = true ->
  Py.contains k (a +:+ String sep b) = Py.contains k a || Py.contains k b.
Proof.
  intros Hk. induction a as [|d a IH].
  - change (EmptyString +:+ String sep b) with (String sep b).
    cbn [Py.contains].
    rewrite <- (prefix_append_sep sep k EmptyString b Hk).
    change (EmptyString +:+ String sep b) with (String sep b).
    now rewrite orb_false_r.
  - rewrite append_cons. cbn [Py.contains].
    rewrite <- append_cons, (prefix_append_sep sep k (String d a) b Hk), IH.
    now rewrite orb_assoc.
Qed.

Lemma keywords_free_of_space :
  forallb (fun item => forallb (free_of " ") (snd item)) topic_keywords = true.
Proof. reflexivity. Qed.

Lemma any_keyword_title_or_text keywords text title :
  forallb (free_of " ") keywords = true ->
  any_keyword keywords (combined_text text title)
  = any_keyword keywords (Py.lower title) || any_keyword keywords (Py.lower text).
Proof.
  intros Hk. unfold combined_text, any_keyword.
  rewrite lower_append.
  change (Py.lower (" " +:+ text)) with (String " " (Py.lower text)).
  induction keywords as [|k ks IH]; [reflexivity|].
  simpl in Hk. apply andb_true_iff in Hk as [Hk Hks].
  simpl. rewrite (contains_append_sep " " k _ _ Hk), (IH Hks).
  destruct (Py.contains k (Py.lower title)), (Py.contains k (Py.lower text));
    simpl; try reflexivity; now rewrite ?orb_true_r.
Qed.

Lemma item_matches_title_or_text item text title :
  In item topic_keywords ->
  item_matches (combined_text text title) item
  = any_keyword (snd item) (Py.lower title) || any_keyword (snd item) (Py.lower text).
Proof.
  intros Hin. unfold item_matches. apply any_keyword_title_or_text.
  pose proof keywords_free_of_space as H. rewrite forallb_forall in H.
  now apply H.
Qed.

Lemma topic_in_result text title topic keywords :
  In (topic, keywords) topic_keywords ->
  topic ∈ extract_topics text title
  <-> any_keyword keywords (combined_text text title) = true.
Proof.
  intros Hin.
  rewrite <- (detected_topic_iff topic_keywords (combined_text text title)
                topic keywords topic_keywords_nodup Hin).
  rewrite list_elem_of_In.
  destruct (extract_topics_cases text title)
    as [(_ & _ & -> & ->) | [(-> & ->) | (_ & ->)]]; [| | reflexivity].
  all: simpl map; split; [|intros []].
  all: intros [<- | []]; simpl in Hin.
  all: repeat (destruct Hin as [Hin | Hin]; [discriminate|]); exact Hin.
Qed.

(** X8. No keyword contains a space, so no match straddles the space
    between title and text: a topic is detected exactly when one of its
    keywords occurs in the lowercased title or in the lowercased text, and
    exchanging title and text gives the same topics. *)
Theorem extract_topics_title_or_text (text title : string) :
  Forall (fun '(topic, keywords) =>
            topic ∈ extract_topics text title
            <-> keyword_occurs keywords (Py.lower title)
                \/ keyword_occurs keywords (Py.lower text))
    topic_keywords
  /\ extract_topics text title = extract_topics title text.
Proof.
  split.
  - apply Forall_forall. intros [topic keywords] Hin.
    apply list_elem_of_In in Hin.
    rewrite (topic_in_result text title topic keywords Hin).
    rewrite <- !any_keyword_occurs.
    change (any_keyword keywords (combined_text text title))
      with (item_matches (combined_text text title) (topic, keywords)).
    rewrite (item_matches_title_or_text _ text title Hin). apply orb_true_iff.
  - unfold extract_topics. rewrite !detect_topics_filter.
    rewrite (andb_comm (Py.is_empty text)).
    rewrite (filter_ext_in (item_matches (combined_text text title))
               (item_matches (combined_text title text))); [reflexivity|].
    intros item Hin. rewrite !item_matches_title_or_text by exact Hin.
    apply orb_comm.
Qed.

(** ** Matches inside longer words *)

Lemma append_assoc a b c : (a +:+ b) +:+ c = a +:+ (b +:+ c).
Proof.
  induction a as [|d a IH]; [reflexivity|].
  rewrite !append_cons. now rewrite IH.
Qed.

Lemma contains_trans a b c :
  Py.contains a b = true -> Py.contains b c = true -> Py.contains a c = true.
Proof.
  rewrite !contains_substring.
  intros (p1 & q1 & ->) (p2 & q2 & ->).
  exists (p2 +:+ p1), (q1 +:+ q2).
  now rewrite !append_assoc.
Qed.

(** X9. Keywords are searched as substrings, not as words: when a keyword
    of a topic occurs inside a word and that word occurs in the lowercased
    title and text, the topic is detected; "said" tags an article as
    technology through the keyword "ai". *)
Theorem topics_match_inside_words (text title topic keyword word : string)
    (keywords : list string) :
  (topic, keywords) ∈ topic_keywords ->
  keyword ∈ keywords ->
  Py.contains keyword word = true ->
  Py.contains word (combined_text text title) = true ->
  topic ∈ extract_topics text title.
Proof.
  intros Hin Hk Hkw Hw. apply list_elem_of_In in Hin.
  apply (topic_in_result text title topic keywords Hin).
  apply any_keyword_occurs. exists keyword. split; [exact Hk|].
  eapply contains_trans; eauto.
Qed.

Lemma topics_match_inside_words_witness :
  "technology" ∈ extract_topics "The mayor said no." "Rain".
Proof.
  apply (topics_match_inside_words "The mayor said no." "Rain" "technology" "ai"
           "said"
           ["technology"; "tech"; "ai"; "software"; "hardware"; "internet"; "app";
            "digital"]).
  - apply list_elem_of_In. simpl. tauto.
  - apply list_elem_of_In. simpl. tauto.
  - reflexivity.
  - reflexivity.
Defined.

Lemma count_present_app xs ys text :
  count_present (xs ++ ys) text
  = (count_present xs text + count_present ys text)%Z.
Proof.
  unfold count_present. induction xs as [|x xs IH]; [reflexivity|].
  simpl. rewrite IH. lia.
Qed.

(** X10. Indicators are substrings too, and one inside another counts
    twice: an indicator that occurs inside a word of the lowercased text
    is counted, and every text with "everyone" has a count of at least
    2. *)
Theorem indicators_match_inside_words (text : string) :
  (forall indicator word,
     indicator ∈ lowercase_indicators ->
     Py.contains indicator word = true ->
     Py.contains word (Py.lower text) = true ->
     (1 <= indicator_count text)%Z)
  /\ (Py.contains "everyone" (Py.lower text) = true ->
      (2 <= indicator_count text)%Z).
Proof.
  assert (forall indicator terms,
             indicator ∈ terms ->
             Py.contains indicator (Py.lower text) = true ->
             (1 <= count_present terms (Py.lower text))%Z) as Hone.
  { intros indicator terms Hin Hc. unfold count_present.
    induction terms as [|t terms IH]; [inversion Hin|].
    simpl. pose proof (count_present_bounds terms (Py.lower text)) as Hb.
    unfold count_present in Hb.
    apply elem_of_cons in Hin as [<- | Hin].
    - rewrite Hc. simpl. lia.
    - specialize (IH Hin). destruct (Py.contains t (Py.lower text)); simpl; lia. }
  split.
  - intros indicator word Hin Hiw Hw. unfold indicator_count.
    rewrite count_present_lowercase_indicators.
    apply (Hone indicator); [exact Hin|]. eapply contains_trans; eauto.
  - intros He.
    assert (Py.contains "every" (Py.lower text) = true) as Hy
      by (eapply contains_trans; [|exact He]; reflexivity).
    unfold indicator_count.
    change propaganda_indicators
      with (["must"; "always"; "never"] ++ ["every"] ++ ["all"; "none"]
            ++ ["everyone"] ++ skipn 7 propaganda_indicators).
    rewrite !count_present_app.
    pose proof (count_present_bounds ["must"; "always"; "never"] (Py.lower text)).
    pose proof (count_present_bounds ["all"; "none"] (Py.lower text)).
    pose proof (count_present_bounds (skipn 7 propaganda_indicators) (Py.lower text)).
    unfold count_present at 2 4. cbn [map Py.sum_bools]. rewrite He, Hy.
    simpl Z.b2z. lia.
Qed.

Lemma indicators_match_inside_words_witness :
  (1 <= indicator_count "A jar of mustard")%Z
  /\ (2 <= indicator_count "Everyone left")%Z.
Proof.
  split.
  - apply (proj1 (indicators_match_inside_words "A jar of mustard") "must" "mustard").
    + apply list_elem_of_In. vm_compute. tauto.
    + reflexivity.
    + reflexivity.
  - apply (indicators_match_inside_words "Everyone left"). reflexivity.
Defined.

(** ** Stage A, key by key *)

Lemma matches_paywall_iff preferences now article :
  matches_paywall (build_query preferences now) article = true
  <-> paywall_ok preferences article.
Proof.
  unfold matches_paywall, paywall_ok. cbn [build_query q_is_paywalled].
  destruct (show_paywalled preferences), (is_paywalled article); simpl.
  - split; [intros _ H; discriminate | reflexivity].
  - split; [intros _ H; discriminate | reflexivity].
  - split; [discriminate | intros H; specialize (H eq_refl); discriminate].
  - split; [reflexivity | reflexivity].
Qed.

Lemma matches_date_iff preferences now article :
  matches_date (build_query preferences now) article = true
  <-> date_ok preferences now article.
Proof.
  unfold matches_date, date_ok. cbn [build_query q_published_date_gte].
  destruct (Z.ltb_spec 0 (max_age_days preferences)) as [Hd|Hd].
  - rewrite Z.leb_le. split; [auto | intros H; now apply H].
  - split; [intros _ H; lia | reflexivity].
Qed.

Lemma matches_topics_iff preferences now article :
  matches_topics (build_query preferences now) article = true
  <-> topics_ok preferences article.
Proof.
  unfold topics_ok.
  destruct (topics preferences) as [|t ts] eqn:Ht.
  - unfold matches_topics. cbn [build_query q_topics]. rewrite Ht. simpl.
    split; [intros _ H; congruence | reflexivity].
  - assert (topics preferences <> []) as Hne by (rewrite Ht; discriminate).
    unfold matches_topics. rewrite (q_topics_nonempty preferences now Hne), Ht.
    destruct (String.eqb (topics_filter_type preferences) "AND").
    + rewrite array_matches_all by discriminate.
      split; [auto | intros H; apply H; discriminate].
    + rewrite array_matches_in.
      split; [auto | intros H; apply H; discriminate].
Qed.

Lemma matches_region_iff preferences now article :
  matches_region (build_query preferences now) article = true
  <-> region_ok preferences article.
Proof.
  unfold matches_region, region_ok. cbn [build_query q_region_in].
  destruct (regions preferences) as [|r rs] eqn:Hr.
  - simpl. split; [intros _ H; congruence | reflexivity].
  - change (0 <? Py.len (r :: rs))%Z with true. cbv iota.
    destruct (classification article) as [c|].
    + rewrite mem_iff. split.
      * intros H _. now exists c.
      * intros H. destruct (H ltac:(discriminate)) as (c' & [= <-] & Hc). exact Hc.
    + split; [discriminate|].
      intros H. destruct (H ltac:(discriminate)) as (c' & Hc & _). discriminate.
Qed.

Lemma matches_length_iff preferences now article :
  matches_length (build_query preferences now) article = true
  <-> length_ok preferences article.
Proof.
  unfold matches_length, length_ok. cbn [build_query q_length_gte q_length_lte].
  destruct (Z.ltb_spec 0 (min_length preferences)) as [Hmin|Hmin];
    destruct (Z.ltb_spec (max_length preferences) 5000) as [Hmax|Hmax];
    destruct (classification article) as [c|];
    rewrite ?andb_true_iff, ?andb_true_r, ?Z.leb_le.
  all: split.
  all: try (intros H; discriminate).
  all: try (intros H; destruct H as (c' & Hc & _); [lia | discriminate]).
  all: try (intros _ Hor; lia).
  all: try reflexivity.
  all: try (intros H _; exists c; split; [reflexivity|]; split; intros; lia).
  all: try (intros H; destruct H as (c' & [= <-] & H1 & H2); [lia|];
            first [split; lia | lia]).
Qed.

(** X11. Stage A key by key: an article matches the base query exactly
    when it is not paywalled if paywalled articles are hidden, is not
    older than [max_age_days] if that is positive, carries all (AND) or
    one (otherwise) of the selected topics if any is selected, lies in a
    selected region if any is selected, and has a length of at least
    [min_length] if that is positive and at most [max_length] if that is
    below 5000; region and length keys need a classification. *)
Theorem stage_a_iff (preferences : Preferences) (now : Z) (article : Article) :
  stage_a preferences now article = true
  <-> paywall_ok preferences article
      /\ date_ok preferences now article
      /\ topics_ok preferences article
      /\ region_ok preferences article
      /\ length_ok preferences article.
Proof.
  unfold stage_a, matches. rewrite !andb_true_iff.
  rewrite matches_paywall_iff, matches_date_iff, matches_topics_iff,
    matches_region_iff, matches_length_iff.
  tauto.
Qed.

(** ** The output of the query pattern on any collection *)

Lemma filter_elem_of {A} (f : A -> bool) (l : list A) x :
  x ∈ List.filter f l <-> x ∈ l /\ f x = true.
Proof. rewrite !list_elem_of_In. apply filter_In. Qed.

Lemma find_articles_submseteq q skip limit collection :
  find_articles q skip limit collection ⊆+ collection.
Proof.
  unfold find_articles.
  etrans; [apply sublist_submseteq, cursor_limit_sublist|].
  etrans; [apply sublist_submseteq, sublist_drop|].
  rewrite sort_desc_perm. apply sublist_submseteq, filter_is_sublist.
Qed.

Lemma find_articles_elem_of q skip limit collection article :
  article ∈ find_articles q skip limit collection ->
  article ∈ collection /\ matches q article = true.
Proof.
  unfold find_articles. intros H.
  eapply elem_of_sublist in H; [|apply cursor_limit_sublist].
  eapply elem_of_sublist in H; [|apply sublist_drop].
  rewrite sort_desc_perm in H. now apply filter_elem_of in H.
Qed.

(** X12. Whatever the collection, the page and the preferences, every
    article of the output comes from the collection, matches the base
    query, has a classification and passes the numeric thresholds: an
    article without a classification is never returned. *)
Theorem filter_articles_sound (preferences : Preferences) (now : Z)
    (skip limit : nat) (collection : list Article) (article : Article) :
  article ∈ filter_articles preferences now skip limit collection ->
  article ∈ collection
  /\ stage_a preferences now article = true
  /\ within_thresholds preferences article = true
  /\ is_Some (classification article).
Proof.
  unfold filter_articles. intros H.
  apply filter_elem_of in H as [H Hb].
  apply find_articles_elem_of in H as [Hin Ha].
  repeat split; try assumption.
  unfold within_thresholds in Hb.
  destruct (classification article); [eauto | discriminate].
Qed.

(** X13. Whatever the order of the collection, the output is newest first;
    it holds no article more often than the collection does; and with a
    positive limit it has at most [limit] articles. *)
Theorem filter_articles_sorted (preferences : Preferences) (now : Z)
    (skip limit : nat) (collection : list Article) :
  newest_first (filter_articles preferences now skip limit collection)
  /\ filter_articles preferences now skip limit collection ⊆+ collection
  /\ (limit <> 0%nat ->
      (length (filter_articles preferences now skip limit collection) <= limit)%nat).
Proof.
  unfold filter_articles. split; [|split].
  - eapply newest_first_sublist; [apply filter_is_sublist|].
    unfold find_articles.
    eapply newest_first_sublist; [apply cursor_limit_sublist|].
    eapply newest_first_sublist; [apply sublist_drop|].
    apply sort_desc_sorted.
  - etrans; [apply sublist_submseteq, filter_is_sublist|].
    apply find_articles_submseteq.
  - intros Hl. etrans; [apply sublist_length, filter_is_sublist|].
    unfold find_articles. destruct limit as [|n]; [congruence|].
    cbn [cursor_limit]. rewrite length_take. lia.
Qed.

Lemma filter_articles_sorted_witness :
  (length (filter_articles (Sample.preferences_with "OR" []) (Sample.day 100) 0 1
             (rev Sample.two_articles)) <= 1)%nat
  /\ filter_articles (Sample.preferences_with "OR" []) (Sample.day 100) 0 0
       (rev Sample.two_articles) = Sample.two_articles.
Proof.
  split.
  - apply (filter_articles_sorted (Sample.preferences_with "OR" []) (Sample.day 100)
             0 1 (rev Sample.two_articles)). discriminate.
  - vm_compute. reflexivity.
Defined.

Lemma filter_articles_sound_witness :
  is_Some (classification Sample.tech_article).
Proof.
  apply (filter_articles_sound (Sample.preferences_with "OR" []) (Sample.day 100)
           0 1 Sample.two_articles Sample.tech_article).
  vm_compute. apply list_elem_of_In. left. reflexivity.
Defined.

(** ** Pages *)






(** ** AND mode and OR mode *)

Lemma stage_a_with_filter_type preferences filter_type now article :
  stage_a (with_filter_type preferences filter_type) now article
  = matches_paywall (build_query preferences now) article
    && matches_date (build_query preferences now) article
    && matches_topics (build_query (with_filter_type preferences filter_type) now)
         article
    && matches_region (build_query preferences now) article
    && matches_length (build_query preferences now) article.
Proof. reflexivity. Qed.

Lemma subset_meets (wanted found : list string) :
  wanted <> [] ->
  list_to_set wanted ⊆@{gset string} list_to_set found ->
  list_to_set found ∩ list_to_set wanted ≠@{gset string} ∅.
Proof.
  intros Hne Hsub. destruct wanted as [|t ts]; [congruence|].
  intros E. assert (t ∈@{gset string} ∅) as Habs; [|set_solver].
  rewrite <- E. apply elem_of_intersection. split.
  - apply Hsub. set_solver.
  - set_solver.
Qed.

(** X15. With the same selected topics, AND mode is the stricter one: an
    article that passes Stage A in AND mode passes it with any other
    [topics_filter_type]; and every value other than "AND" is treated as
    "OR". *)
Theorem and_mode_is_stricter (preferences : Preferences) (now : Z)
    (article : Article) (filter_type : string) :
  (stage_a (with_filter_type preferences "AND") now article = true ->
   stage_a (with_filter_type preferences filter_type) now article = true)
  /\ (filter_type <> "AND" ->
      stage_a (with_filter_type preferences filter_type) now article
      = stage_a (with_filter_type preferences "OR") now article).
Proof.
  split.
  - rewrite !stage_a_with_filter_type, !andb_true_iff.
    intros ((((Hp & Hd) & Ht) & Hr) & Hl). repeat split; try assumption.
    apply matches_topics_iff. apply matches_topics_iff in Ht.
    unfold topics_ok in *. cbn [with_filter_type topics topics_filter_type] in *.
    intros Hne. specialize (Ht Hne). cbn in Ht.
    destruct (String.eqb filter_type "AND"); [exact Ht|].
    now apply subset_meets.
  - intros Hne. rewrite !stage_a_with_filter_type. do 2 f_equal.
    unfold matches_topics. cbn [build_query q_topics with_filter_type topics
                                  topics_filter_type].
    apply String.eqb_neq in Hne. now rewrite Hne.
Qed.

Lemma and_mode_is_stricter_witness :
  stage_a (with_filter_type (Sample.preferences_with "" ["health"; "technology"])
             "and") (Sample.day 100) Sample.tech_article
  = stage_a (with_filter_type (Sample.preferences_with "" ["health"; "technology"])
               "OR") (Sample.day 100) Sample.tech_article.
Proof.
  apply (and_mode_is_stricter (Sample.preferences_with "" ["health"; "technology"])
           (Sample.day 100) Sample.tech_article "and").
  discriminate.
Defined.

(** ** Toggling a topic or a region *)

Lemma index_of_None x xs : index_of x xs = None <-> x ∉ xs.
Proof.
  induction xs as [|y xs IH]; simpl.
  - split; [intros _ H; inversion H | reflexivity].
  - destruct (String.eqb_spec y x) as [->|Hne].
    + split; [discriminate | intros H; exfalso; apply H; left].
    + rewrite not_elem_of_cons, <- IH.
      destruct (index_of x xs); simpl.
      * split; [discriminate | intros [_ H]; discriminate].
      * split; [intros _; split; [congruence | reflexivity] | reflexivity].
Qed.

Lemma index_of_Some x xs i :
  index_of x xs = Some i -> xs = take i xs ++ x :: drop (S i) xs /\ x ∉ take i xs.
Proof.
  revert i. induction xs as [|y xs IH]; intros i; simpl; [discriminate|].
  destruct (String.eqb_spec y x) as [->|Hne].
  - intros [= <-]. simpl. split; [now rewrite drop_0 | apply not_elem_of_nil].
  - destruct (index_of x xs) as [j|]; simpl; [|discriminate].
    intros [= <-]. destruct (IH j eq_refl) as [E Hnot]. simpl.
    split; [now rewrite <- E|]. rewrite not_elem_of_cons. auto.
Qed.

Lemma toggle_absent x xs : x ∉ xs -> toggle xs x = xs ++ [x].
Proof. intros H. unfold toggle. apply index_of_None in H. now rewrite H. Qed.

Lemma toggle_present x xs :
  x ∈ xs ->
  exists i, index_of x xs = Some i
            /\ toggle xs x = take i xs ++ drop (S i) xs
            /\ xs = take i xs ++ x :: drop (S i) xs
            /\ x ∉ take i xs.
Proof.
  intros H. unfold toggle. destruct (index_of x xs) as [i|] eqn:E.
  - exists i. destruct (index_of_Some x xs i E) as [Hxs Hnot].
    repeat split; try assumption. apply delete_take_drop.
  - apply index_of_None in E. contradiction.
Qed.

Lemma index_of_appended x xs : x ∉ xs -> index_of x (xs ++ [x]) = Some (length xs).
Proof.
  induction xs as [|y xs IH]; simpl.
  - intros _. now rewrite String.eqb_refl.
  - rewrite not_elem_of_cons. intros [Hne H].
    destruct (String.eqb_spec y x) as [->|_]; [congruence|].
    now rewrite (IH H).
Qed.

(** X16. The toggle of the preference form: a value that is not selected
    is appended, and toggling it again gives back the list as it was; of a
    selected value exactly the first occurrence is removed, the rest of
    the list staying as it was; on a list without repetition the result
    has no repetition, holds the toggled value exactly when the list did
    not, and keeps every other value. *)
Theorem toggle_correct (xs : list string) (x : string) :
  (x ∉ xs -> toggle xs x = xs ++ [x] /\ toggle (toggle xs x) x = xs)
  /\ (x ∈ xs ->
      exists before after,
        xs = before ++ x :: after
        /\ (x ∉ before)
        /\ toggle xs x = before ++ after)
  /\ (x ∈ xs ->
      toggle xs x `sublist_of` xs /\ S (length (toggle xs x)) = length xs)
  /\ (NoDup xs ->
      NoDup (toggle xs x)
      /\ (x ∈ toggle xs x <-> x ∉ xs)
      /\ (forall y, y <> x -> y ∈ toggle xs x <-> y ∈ xs)).
Proof.
  split; [|split; [|split]].
  - intros H. rewrite (toggle_absent x xs H). split; [reflexivity|].
    unfold toggle. rewrite (index_of_appended x xs H).
    rewrite delete_take_drop, take_app_length.
    rewrite drop_ge by (rewrite length_app; simpl; lia).
    apply app_nil_r.
  - intros H. destruct (toggle_present x xs H) as (i & _ & Ht & E & Hpre).
    exists (take i xs), (drop (S i) xs). auto.
  - intros H. destruct (toggle_present x xs H) as (i & _ & -> & E & _).
    split.
    + rewrite E at 3. apply sublist_app; [reflexivity|]. now constructor.
    + rewrite E at 3. rewrite !length_app. simpl. lia.
  - intros Hnd. destruct (decide (x ∈ xs)) as [Hin|Hnot].
    + destruct (toggle_present x xs Hin) as (i & _ & -> & E & Hpre).
      rewrite E in Hnd. apply NoDup_app in Hnd as (Hn1 & Hdis & Hn2).
      apply NoDup_cons in Hn2 as [Hpost Hn2].
      split; [|split].
      * apply NoDup_app. repeat split; try assumption.
        intros y Hy Hy'. apply (Hdis y Hy). now right.
      * rewrite elem_of_app. tauto.
      * intros y Hy. rewrite E at 3. rewrite !elem_of_app, elem_of_cons. tauto.
    + rewrite (toggle_absent x xs Hnot). split; [|split].
      * apply NoDup_app. repeat split; [assumption | | apply NoDup_singleton].
        intros y Hy Hy'. apply list_elem_of_singleton in Hy'. now subst.
      * rewrite elem_of_app, list_elem_of_singleton. tauto.
      * intros y Hy. rewrite elem_of_app, list_elem_of_singleton. tauto.
Qed.

Lemma toggle_correct_witness :
  toggle (toggle ["health"; "world"] "sports") "sports" = ["health"; "world"]
  /\ (exists before after,
        ["world"; "health"; "sports"; "health"] = before ++ "health" :: after
        /\ ("health" ∉ before)
        /\ toggle ["world"; "health"; "sports"; "health"] "health" = before ++ after)
  /\ NoDup (toggle ["health"; "world"] "health").
Proof.
  split; [|split].
  - apply (toggle_correct ["health"; "world"] "sports").
    intros H. apply list_elem_of_In in H. simpl in H.
    repeat (destruct H as [H | H]; [discriminate|]). exact H.
  - apply (proj1 (proj2 (toggle_correct ["world"; "health"; "sports"; "health"]
                           "health"))).
    right. left.
  - apply (toggle_correct ["health"; "world"] "health").
    apply NoDup_ListNoDup.
    repeat (apply List.NoDup_cons; [simpl; intuition discriminate|]).
    apply List.NoDup_nil.
Defined.

(** Of a value selected twice, the later occurrence stays. *)
Example toggle_first_occurrence :
  toggle ["world"; "health"; "sports"; "health"] "health"
  = ["world"; "sports"; "health"].
Proof. reflexivity. Qed.

(** ** Selecting one more topic *)

Lemma stage_a_set_topics preferences selected now article :
  stage_a (set_topics preferences selected) now article
  = matches_paywall (build_query preferences now) article
    && matches_date (build_query preferences now) article
    && matches_topics (build_query (set_topics preferences selected) now) article
    && matches_region (build_query preferences now) article
    && matches_length (build_query preferences now) article.
Proof. reflexivity. Qed.

(** X17. Selecting one more topic in the form and asking again: in AND
    mode the new feed can only lose articles (an article passing Stage A
    afterwards passed it before); in any other mode, when a topic was
    already selected, it can only gain articles; the numeric thresholds
    are not touched. *)
Theorem selecting_a_topic (preferences : Preferences) (now : Z)
    (article : Article) (topic : string) :
  topic ∉ topics preferences ->
  (topics_filter_type preferences = "AND" ->
   stage_a (handleTopicToggle topic preferences) now article = true ->
   stage_a preferences now article = true)
  /\ (topics_filter_type preferences <> "AND" ->
      topics preferences <> [] ->
      stage_a preferences now article = true ->
      stage_a (handleTopicToggle topic preferences) now article = true)
  /\ within_thresholds (handleTopicToggle topic preferences) article
     = within_thresholds preferences article.
Proof.
  intros Hnot. unfold handleTopicToggle. rewrite (toggle_absent _ _ Hnot).
  split; [|split; [|reflexivity]].
  - intros Hand. rewrite stage_a_set_topics. unfold stage_a, matches.
    rewrite !andb_true_iff.
    intros ((((Hp & Hd) & Ht) & Hr) & Hl). repeat split; try assumption.
    apply matches_topics_iff. apply matches_topics_iff in Ht.
    unfold topics_ok in *. cbn [set_topics topics topics_filter_type] in Ht.
    rewrite Hand in *. simpl String.eqb in *. cbv iota in *.
    intros Hne. assert (topics preferences ++ [topic] <> []) as Hne'
      by (destruct (topics preferences); discriminate).
    specialize (Ht Hne'). rewrite list_to_set_app_L in Ht. set_solver.
  - intros Hor Hne. rewrite stage_a_set_topics. unfold stage_a, matches.
    rewrite !andb_true_iff.
    intros ((((Hp & Hd) & Ht) & Hr) & Hl). repeat split; try assumption.
    apply matches_topics_iff. apply matches_topics_iff in Ht.
    unfold topics_ok in *. cbn [set_topics topics topics_filter_type].
    apply String.eqb_neq in Hor. rewrite Hor in *.
    intros _. specialize (Ht Hne). rewrite list_to_set_app_L.
    apply set_choose_L in Ht as [z Hz]. apply elem_of_intersection in Hz as [Hz1 Hz2].
    intros E. apply (not_elem_of_empty (C:=gset string) z). rewrite <- E.
    apply elem_of_intersection. split; [exact Hz1|].
    apply elem_of_union. now left.
Qed.

Lemma selecting_a_topic_witness :
  stage_a (handleTopicToggle "health" (Sample.preferences_with "OR" ["technology"]))
    (Sample.day 100) Sample.tech_article = true
  /\ stage_a (Sample.preferences_with "AND" ["technology"]) (Sample.day 100)
       Sample.second_article = true.
Proof.
  assert ("health" ∉ ["technology"]) as Hnot.
  { intros H. apply list_elem_of_In in H. simpl in H.
    repeat (destruct H as [H | H]; [discriminate|]). exact H. }
  split.
  - apply (proj1 (proj2 (selecting_a_topic
                           (Sample.preferences_with "OR" ["technology"])
                           (Sample.day 100) Sample.tech_article "health" Hnot)));
      [discriminate | discriminate | reflexivity].
  - apply (proj1 (selecting_a_topic
                    (Sample.preferences_with "AND" ["technology"])
                    (Sample.day 100) Sample.second_article "health" Hnot));
      reflexivity.
Defined.

(** ** Selecting one more region *)

Lemma stage_a_set_regions preferences selected now article :
  stage_a (set_regions preferences selected) now article
  = matches_paywall (build_query preferences now) article
    && matches_date (build_query preferences now) article
    && matches_topics (build_query preferences now) article
    && matches_region (build_query (set_regions preferences selected) now) article
    && matches_length (build_query preferences now) article.
Proof. reflexivity. Qed.

(** X18. Selecting one more region in the form and asking again: when a
    region was already selected the new feed can only gain articles; when
    none was selected it can only lose articles, the first selection
    turning the region key on. *)
Theorem selecting_a_region (preferences : Preferences) (now : Z)
    (article : Article) (region : string) :
  region ∉ regions preferences ->
  (regions preferences <> [] ->
   stage_a preferences now article = true ->
   stage_a (handleRegionToggle region preferences) now article = true)
  /\ (regions preferences = [] ->
      stage_a (handleRegionToggle region preferences) now article = true ->
      stage_a preferences now article = true
      /\ exists c, classification article = Some c /\ cls_region c = region).
Proof.
  intros Hnot. unfold handleRegionToggle. rewrite (toggle_absent _ _ Hnot).
  rewrite stage_a_set_regions. unfold stage_a, matches. split.
  - intros Hne. rewrite !andb_true_iff.
    intros ((((Hp & Hd) & Ht) & Hr) & Hl). repeat split; try assumption.
    apply matches_region_iff. apply matches_region_iff in Hr.
    unfold region_ok in *. cbn [set_regions regions]. intros _.
    destruct (Hr Hne) as (c & Hc & Hin). exists c. split; [exact Hc|].
    apply elem_of_app. now left.
  - intros Hnil. rewrite !andb_true_iff.
    intros ((((Hp & Hd) & Ht) & Hr) & Hl).
    apply matches_region_iff in Hr. unfold region_ok in Hr.
    cbn [set_regions regions] in Hr. rewrite Hnil in Hr.
    destruct (Hr ltac:(discriminate)) as (c & Hc & Hin).
    apply list_elem_of_singleton in Hin. split; [|now exists c].
    repeat split; try assumption.
    apply matches_region_iff. unfold region_ok. intros Hne. congruence.
Qed.

Lemma selecting_a_region_witness :
  stage_a (handleRegionToggle "asia" (Sample.preferences_with "OR" []))
    (Sample.day 100) Sample.tech_article = false
  /\ stage_a (handleRegionToggle "asia"
                (handleRegionToggle "europe" (Sample.preferences_with "OR" [])))
       (Sample.day 100) Sample.tech_article = true.
Proof.
  split.
  - destruct (stage_a (handleRegionToggle "asia" (Sample.preferences_with "OR" []))
                (Sample.day 100) Sample.tech_article) eqn:E; [|reflexivity].
    apply (selecting_a_region (Sample.preferences_with "OR" []) (Sample.day 100)
             Sample.tech_article "asia") in E as [_ (c & [= <-] & Hc)];
      [discriminate | apply not_elem_of_nil | reflexivity].
  - apply (proj1 (selecting_a_region
                    (handleRegionToggle "europe" (Sample.preferences_with "OR" []))
                    (Sample.day 100) Sample.tech_article "asia"
                    ltac:(intros H; apply list_elem_of_singleton in H; discriminate)));
      [discriminate | reflexivity].
Defined.

(** ** The fallback splitter *)

(** X19. The two splitters of [calculate_reading_level]: when the first
    one answers, the fallback has no say; when the first one raises, the
    result is the one the fallback alone would give; when both raise, the
    result is the default 5. *)
Theorem reading_level_fallback (sent_tokenize simple_tokenize : tokenizer)
    (text : string) :
  (is_Some (sent_tokenize text) ->
   forall other : tokenizer,
     calculate_reading_level sent_tokenize simple_tokenize text
     = calculate_reading_level sent_tokenize other text)
  /\ (sent_tokenize text = None ->
      calculate_reading_level sent_tokenize simple_tokenize text
      = calculate_reading_level simple_tokenize simple_tokenize text)
  /\ (sent_tokenize text = None -> simple_tokenize text = None ->
      calculate_reading_level sent_tokenize simple_tokenize text = 5).
Proof.
  unfold calculate_reading_level, sentences_of. split; [|split].
  - intros [sentences ->] other. reflexivity.
  - intros ->. now destruct (simple_tokenize text).
  - intros -> ->. now destruct (Py.is_empty text).
Qed.

Lemma reading_level_fallback_witness :
  calculate_reading_level (Sample.answering Sample.cat_sentences)
    Sample.unavailable Sample.cat_text
  = calculate_reading_level (Sample.answering Sample.cat_sentences)
      (Sample.answering []) Sample.cat_text
  /\ calculate_reading_level Sample.unavailable Sample.unavailable Sample.cat_text = 5.
Proof.
  split.
  - apply (reading_level_fallback (Sample.answering Sample.cat_sentences)
             Sample.unavailable Sample.cat_text).
    eexists. reflexivity.
  - apply (reading_level_fallback Sample.unavailable Sample.unavailable
             Sample.cat_text); reflexivity.
Defined.

(** ** Lower thresholds show more *)

(** X20. Stage B is monotone in the two minimum thresholds: with the same
    preferred reading level and information density, an article kept
    under some bias and propaganda thresholds is kept under any lower
    ones. *)
Theorem lower_thresholds_keep_more (preferences relaxed : Preferences)
    (article : Article) :
  reading_level relaxed == reading_level preferences ->
  information_density relaxed == information_density preferences ->
  bias_threshold relaxed <= bias_threshold preferences ->
  propaganda_threshold relaxed <= propaganda_threshold preferences ->
  within_thresholds preferences article = true ->
  within_thresholds relaxed article = true.
Proof.
  intros Hr Hd Hb Hp. unfold within_thresholds.
  destruct (classification article) as [c|]; [|discriminate].
  rewrite !andb_true_iff, !ge_iff, !le_iff. intros H.
  repeat split; lra.
Qed.

Lemma lower_thresholds_keep_more_witness :
  within_thresholds (Sample.preferences_with "AND" ["health"]) Sample.second_article
  = true.
Proof.
  apply (lower_thresholds_keep_more
           {| reading_level := 5; information_density := 5;
              bias_threshold := 10; propaganda_threshold := 9;
              max_length := 5000; min_length := 0; topics := []; regions := [];
              show_paywalled := true; topics_filter_type := "OR";
              max_age_days := 30 |}
           (Sample.preferences_with "AND" ["health"]) Sample.second_article);
    try reflexivity; vm_compute; discriminate.
Defined.
